(** * pitchfork-echo-studio: the quantum audio integration

    A shallow embedding of [src/integrations/qbraid_integration.py]
    (class [PitchforkEchoStudioQuantum]) and the properties of its result
    analyzer, suite runner and metrics aggregator.

    Numbers.  A Python [int] is a [Z].  A Python [float] is modelled by an
    exact number: a rational ([Q]) where the code only adds, divides and
    compares, a real ([R]) where it takes a logarithm.  Of binary64 the
    model keeps what changes the control flow of a true division of
    integers: the quotient too large for a float, on which Python raises
    [OverflowError], and the quotient too small for one, which is 0.0.  The
    rounding of a value that is neither is outside the model: where a
    statement names a quotient, a sum or a logarithm, the code holds the
    binary64 number nearest to it.

    Dictionaries.  A Python [dict] keeps insertion order, and [max] over its
    items depends on that order, so a dictionary is an association list
    whose keys are pairwise distinct. *)

From Stdlib Require Import ZArith QArith Qabs Reals Qreals Lra Lia.
From Stdlib Require Import List String Ascii Bool DecimalString.
Import ListNotations.

Local Open Scope string_scope.
Local Open Scope Z_scope.

(** ** Exceptions and fallible results *)

Module Py.

(** The exceptions the module can meet, all of them subclasses of
    [Exception]: the built-in ones raised by [max], [math.log2] and [/],
    and whatever the job manager raises.  The messages of the built-in
    ones are worded as CPython 3.11 words them. *)
Inductive exn : Type :=
| ValueError (msg : string)
| ZeroDivisionError (msg : string)
| OverflowError (msg : string)
| Exception (msg : string).

(** [str(e)] *)
Definition str (e : exn) : string :=
  match e with
  | ValueError msg => msg
  | ZeroDivisionError msg => msg
  | OverflowError msg => msg
  | Exception msg => msg
  end.

Inductive result (A : Type) : Type :=
| Ok (a : A)
| Raise (e : exn).

Arguments Ok {A} a.
Arguments Raise {A} e.

Definition bind {A B : Type} (c : result A) (k : A -> result B) : result B :=
  match c with
  | Ok a => k a
  | Raise e => Raise e
  end.

(** [sum] over integers *)
Definition sum (xs : list Z) : Z := fold_left Z.add xs 0.

(** [sum] over floats *)
Definition fsum (xs : list Q) : Q := fold_left Qplus xs (0 : Q).

(** [a / b] with a float operand, or on two list lengths, which are far
    from either end of binary64: true division, which raises on a zero
    divisor *)
Definition truediv (a b : Q) : result Q :=
  if Qeq_bool b 0 then Raise (ZeroDivisionError "division by zero")
  else Ok (a / b)%Q.

(** The two ends of binary64 under rounding to nearest, ties to even: a
    quotient of magnitude at most [1 / flush_bound] is 0.0, one of
    magnitude at least [overflow_bound] is beyond the greatest float. *)
Definition flush_bound : Z := 2 ^ 1075.
Definition overflow_bound : Z := 2 ^ 1024 - 2 ^ 970.

Definition underflows (a b : Z) : bool := Z.abs a * flush_bound <=? Z.abs b.
Definition overflows (a b : Z) : bool := overflow_bound * Z.abs b <=? Z.abs a.

(** [a / b] on integers: true division, which raises on a zero divisor and
    on a quotient too large for a float, and gives 0.0 for one too small *)
Definition int_truediv (a b : Z) : result Q :=
  if b =? 0 then Raise (ZeroDivisionError "division by zero")
  else if overflows a b
       then Raise (OverflowError "integer division result too large for a float")
       else Ok (if underflows a b then 0 else inject_Z a / inject_Z b)%Q.

(** [a < b] and [a >= b] on floats *)
Definition flt (a b : Q) : bool := negb (Qle_bool b a).
Definition fge (a b : Q) : bool := Qle_bool b a.

(** [math.log2], which raises outside its domain *)
Definition log2 (x : R) : result R :=
  if Rlt_dec 0 x then Ok (ln x / ln 2)%R
  else Raise (ValueError "math domain error").

(** [min(a, b)]: [b] when [b < a], else [a] *)
Definition min (a b : R) : R := if Rlt_dec b a then b else a.

(** The scan of [max(items, key=lambda x: x[1])]: the running maximum is
    replaced only by a strictly greater count, so the first maximal item in
    iteration order wins. *)
Fixpoint max_scan (best : string * Z) (items : list (string * Z)) : string * Z :=
  match items with
  | [] => best
  | item :: rest =>
      if snd best <? snd item then max_scan item rest else max_scan best rest
  end.

Definition max_by_count (items : list (string * Z)) : result (string * Z) :=
  match items with
  | [] => Raise (ValueError "max() arg is an empty sequence")
  | item :: rest => Ok (max_scan item rest)
  end.

(** [str(n)] for an integer *)
Definition str_int (n : Z) : string := NilZero.string_of_int (Z.to_int n).

(** [d[k] = v]: overwrite in place, or append a new key *)
Fixpoint setitem {V : Type} (d : list (string * V)) (k : string) (v : V)
  : list (string * V) :=
  match d with
  | [] => [(k, v)]
  | (k', v') :: rest =>
      if String.eqb k' k then (k', v) :: rest else (k', v') :: setitem rest k v
  end.

Definition values {V : Type} (d : list (string * V)) : list V := map snd d.
Definition keys {V : Type} (d : list (string * V)) : list string := map fst d.

End Py.

Import Py.

Notation "x <- c ;; k" := (Py.bind c (fun x => k))
  (at level 61, c at next level, right associativity).

(** ** The manager's data types

    [qbraid_manager] is imported from a directory that is not among the
    sources; the module only builds [QuantumJob]s and reads [JobResult]s. *)

(** Modelled from the spec: the workspace tag of a job request, an
    enumeration of [qbraid_manager] of which the module uses one member. *)
Inductive WorkspaceType : Type := PITCHFORK_ECHO_STUDIO.

(** Modelled from the spec: the device-type tag of a job request, an
    enumeration of [qbraid_manager] of which the module uses one member. *)
Inductive ComputeType : Type := QUANTUM_SIMULATION.

(** A metadata value: the module stores strings and integers. *)
Inductive MetaValue : Type :=
| MStr (s : string)
| MInt (n : Z).

(** Modelled from the spec: the job request of [qbraid_manager], with the
    five keyword arguments the module constructs it from (workspace tag,
    circuit text, device-type tag, shot count, metadata mapping). *)
Record QuantumJob : Type := mkQuantumJob {
  workspace : WorkspaceType;
  circuit : string;
  device_type : ComputeType;
  shots : Z;
  metadata : list (string * MetaValue)
}.

(** Modelled from the spec: the result of [qbraid_manager], with the three
    fields the module reads (success flag, mapping from bitstring label to
    count, execution time in seconds). *)
Record JobResult : Type := mkJobResult {
  success : bool;
  counts : list (string * Z);
  execution_time : Q
}.

(** The data model's invariant on an outcome-count mapping: labels are
    pairwise distinct (it is a dictionary) and counts are non-negative
    integers. *)
Fixpoint distinct (ks : list string) : bool :=
  match ks with
  | [] => true
  | k :: rest => negb (existsb (String.eqb k) rest) && distinct rest
  end.

Definition outcome_counts (cs : list (string * Z)) : bool :=
  distinct (keys cs) && forallb (fun kv => 0 <=? snd kv) cs.

(** ** Result analyzer *)

Record AudioAnalysis : Type := mkAudioAnalysis {
  audio_quality : Q;
  optimal_audio : string;
  audio_diversity : nat;
  quantum_harmony : R;
  audio_insights : list string
}.

(** The dictionary [analyze_audio_effectiveness] returns: the error marker
    [{"error": ...}] or the five-key analysis. *)
Inductive AnalysisDict : Type :=
| AnalysisError (error : string)
| Analysis (a : AudioAnalysis).

(** The loop of [_calculate_harmony] over [counts.values()], [harmony]
    being the accumulator. *)
Fixpoint harmony_loop (total : Z) (vs : list Z) (harmony : R) : result R :=
  match vs with
  | [] => Ok harmony
  | count :: rest =>
      if 0 <? count then
        probability <- Py.int_truediv count total ;;
        l <- Py.log2 (Q2R probability) ;;
        harmony_loop total rest (harmony - Q2R probability * l)%R
      else harmony_loop total rest harmony
  end.

Definition _calculate_harmony (counts : list (string * Z)) : result R :=
  let total := Py.sum (values counts) in
  if total =? 0 then Ok 0%R
  else
    harmony <- harmony_loop total (values counts) 0%R ;;
    Ok (Py.min 1 (harmony / 4))%R.

Definition _generate_audio_insights (result : JobResult) : list string :=
  if success result then
    ["Quantum audio synthesis achieved";
     "Consciousness-enhanced audio quantum-processed"]
    ++ (if Py.flt (execution_time result) 30
        then ["Fast audio processing achieved"] else [])
    ++ (if (8 <? List.length (counts result))%nat
        then ["High audio diversity - excellent creative potential"] else [])
  else ["Fallback to classical audio algorithms recommended"].

Definition analyze_audio_effectiveness (result : JobResult) : Py.result AnalysisDict :=
  if negb (success result) then Ok (AnalysisError "quantum_audio_failed")
  else
    let total_shots := Py.sum (values (counts result)) in
    most_common <- Py.max_by_count (counts result) ;;
    quality <- Py.int_truediv (snd most_common) total_shots ;;
    harmony <- _calculate_harmony (counts result) ;;
    Ok (Analysis {|
      audio_quality := quality;
      optimal_audio := fst most_common;
      audio_diversity := List.length (counts result);
      quantum_harmony := harmony;
      audio_insights := _generate_audio_insights result
    |}).

(** ** Circuit templates and job dispatch *)

Definition dquote : string := String (ascii_of_nat 34) EmptyString.

(** The four lines every template starts with; the register sizes are the
    only interpolated part of a template. *)
Definition registers (n : Z) : string :=
  "OPENQASM 3.0;
include " ++ dquote ++ "stdgates.inc" ++ dquote ++ ";
qubit[" ++ str_int n ++ "] q;
bit[" ++ str_int n ++ "] c;
".

Definition synthesis_qasm (audio_layers : Z) : string :=
  registers audio_layers ++ "// Quantum audio synthesis
h q[0];
h q[1];
h q[2];
h q[3];
// Create quantum correlations between audio layers
cx q[0], q[1];
cx q[1], q[2];
cx q[2], q[3];
cx q[0], q[2];
// Apply quantum phase for optimal synthesis
ry(pi/4) q[0];
ry(pi/4) q[1];
ry(pi/8) q[2];
ry(pi/8) q[3];
h q[0];
h q[1];
// Measure optimal synthesis configuration
measure q[0] -> c[0];
measure q[1] -> c[1];
measure q[2] -> c[2];
measure q[3] -> c[3];
".

Definition consciousness_qasm (consciousness_levels : Z) : string :=
  registers consciousness_levels ++ "// Quantum consciousness audio
h q[0];
h q[1];
h q[2];
// Create quantum consciousness correlations
cx q[0], q[1];
cx q[1], q[2];
cx q[0], q[2];
// Apply quantum phase for conscious audio
ry(pi/3) q[0];
ry(pi/6) q[1];
ry(pi/3) q[2];
h q[0];
h q[2];
// Measure consciousness audio
measure q[0] -> c[0];
measure q[1] -> c[1];
measure q[2] -> c[2];
".

Definition echo_qasm (echo_patterns : Z) : string :=
  registers echo_patterns ++ "// Quantum echo optimization
h q[0];
h q[1];
h q[2];
h q[3];
// Create quantum echo correlations
cx q[0], q[1];
cx q[1], q[2];
cx q[2], q[3];
cx q[0], q[3];
// Apply quantum phase for echo perfection
ry(pi/4) q[0];
ry(pi/8) q[1];
ry(pi/4) q[2];
ry(pi/8) q[3];
h q[0];
h q[1];
// Measure echo optimization
measure q[0] -> c[0];
measure q[1] -> c[1];
measure q[2] -> c[2];
measure q[3] -> c[3];
".

Definition frequency_qasm (frequency_bands : Z) : string :=
  registers frequency_bands ++ "// Quantum frequency harmonization
h q[0];
h q[1];
h q[2];
// Create quantum frequency correlations
cx q[0], q[1];
cx q[1], q[2];
cx q[0], q[2];
// Apply quantum phase for frequency harmony
ry(pi/3) q[0];
ry(pi/6) q[1];
ry(pi/3) q[2];
h q[0];
h q[1];
h q[2];
// Measure frequency harmonization
measure q[0] -> c[0];
measure q[1] -> c[1];
measure q[2] -> c[2];
".

Definition spatial_qasm (spatial_dimensions : Z) : string :=
  registers spatial_dimensions ++ "// Quantum spatial audio
h q[0];
h q[1];
h q[2];
h q[3];
// Create quantum spatial correlations
cx q[0], q[1];
cx q[1], q[2];
cx q[2], q[3];
cx q[0], q[2];
cx q[1], q[3];
// Apply quantum phase for spatial perfection
ry(pi/4) q[0];
ry(pi/4) q[1];
ry(pi/8) q[2];
ry(pi/8) q[3];
h q[0];
h q[1];
h q[2];
// Measure spatial audio
measure q[0] -> c[0];
measure q[1] -> c[1];
measure q[2] -> c[2];
measure q[3] -> c[3];
".

Definition audio_job (qasm : string) (shots : Z)
  (metadata : list (string * MetaValue)) : QuantumJob :=
  {| workspace := PITCHFORK_ECHO_STUDIO;
     circuit := qasm;
     device_type := QUANTUM_SIMULATION;
     shots := shots;
     metadata := metadata |}.

Definition synthesis_job (audio_layers shots : Z) : QuantumJob :=
  audio_job (synthesis_qasm audio_layers) shots
    [("operation", MStr "quantum_audio_synthesis");
     ("audio_layers", MInt audio_layers);
     ("synthesis", MStr "quantum_harmonic")].

Definition consciousness_job (consciousness_levels shots : Z) : QuantumJob :=
  audio_job (consciousness_qasm consciousness_levels) shots
    [("operation", MStr "quantum_consciousness_audio");
     ("consciousness_levels", MInt consciousness_levels);
     ("audio", MStr "quantum_conscious")].

Definition echo_job (echo_patterns shots : Z) : QuantumJob :=
  audio_job (echo_qasm echo_patterns) shots
    [("operation", MStr "quantum_echo_optimization");
     ("echo_patterns", MInt echo_patterns);
     ("optimization", MStr "quantum_perfect")].

Definition frequency_job (frequency_bands shots : Z) : QuantumJob :=
  audio_job (frequency_qasm frequency_bands) shots
    [("operation", MStr "quantum_frequency_harmonization");
     ("frequency_bands", MInt frequency_bands);
     ("harmonization", MStr "quantum_resonant")].

Definition spatial_job (spatial_dimensions shots : Z) : QuantumJob :=
  audio_job (spatial_qasm spatial_dimensions) shots
    [("operation", MStr "quantum_spatial_audio");
     ("spatial_dimensions", MInt spatial_dimensions);
     ("spatial", MStr "quantum_immersive")].

(** ** Suite runner *)

Inductive LogLevel : Type := INFO | ERROR.

(** An entry of the suite's result mapping: the pair stored on success, or
    the error marker [{"error": str(e)}]. *)
Inductive SuiteEntry : Type :=
| Entry (quantum_result : JobResult) (audio_analysis : AnalysisDict)
| EntryError (error : string).

Definition SuiteResult : Type := list (string * SuiteEntry).

Section Suite.

(** The external manager: a state of its own and one synchronous entry
    point, which returns a result or raises. *)
Variable Manager : Type.
Variable execute_quantum_job : QuantumJob -> Manager -> result JobResult * Manager.

(** What a run can change: the manager, the jobs handed to it so far
    (oldest first) and the logger's records. *)
Record World : Type := mkWorld {
  manager : Manager;
  submitted : list QuantumJob;
  logged : list (LogLevel * string)
}.

Definition logger (level : LogLevel) (msg : string) (w : World) : World :=
  {| manager := manager w;
     submitted := submitted w;
     logged := logged w ++ [(level, msg)] |}.

Definition execute (job : QuantumJob) (w : World) : result JobResult * World :=
  let (r, m) := execute_quantum_job job (manager w) in
  (r, {| manager := m;
         submitted := submitted w ++ [job];
         logged := logged w |}).

Definition operation : Type := World -> result JobResult * World.

Definition quantum_audio_synthesis (audio_layers shots : Z) : operation :=
  execute (synthesis_job audio_layers shots).
Definition quantum_consciousness_audio (consciousness_levels shots : Z) : operation :=
  execute (consciousness_job consciousness_levels shots).
Definition quantum_echo_optimization (echo_patterns shots : Z) : operation :=
  execute (echo_job echo_patterns shots).
Definition quantum_frequency_harmonization (frequency_bands shots : Z) : operation :=
  execute (frequency_job frequency_bands shots).
Definition quantum_spatial_audio (spatial_dimensions shots : Z) : operation :=
  execute (spatial_job spatial_dimensions shots).

(** The suite's fixed list; each operation is called with its defaults. *)
Definition operations : list (string * operation) :=
  [("Audio Synthesis", quantum_audio_synthesis 4 100);
   ("Consciousness Audio", quantum_consciousness_audio 3 100);
   ("Echo Optimization", quantum_echo_optimization 4 100);
   ("Frequency Harmonization", quantum_frequency_harmonization 3 100);
   ("Spatial Audio", quantum_spatial_audio 4 100)].

(** The [except Exception as e] handler of the loop body. *)
Definition on_exception (results : SuiteResult) (name : string) (e : exn)
  (w : World) : SuiteResult * World :=
  (setitem results name (EntryError (Py.str e)),
   logger ERROR (name ++ " failed: " ++ Py.str e) w).

(** One iteration of the loop: the [try] body, then the handler when the
    operation or the analysis raised. *)
Definition suite_step (acc : SuiteResult * World) (op : string * operation)
  : SuiteResult * World :=
  let (results, w) := acc in
  let (name, run) := op in
  let w1 := logger INFO ("Executing " ++ name ++ "...") w in
  let (r, w2) := run w1 in
  match r with
  | Raise e => on_exception results name e w2
  | Ok quantum_result =>
      match analyze_audio_effectiveness quantum_result with
      | Raise e => on_exception results name e w2
      | Ok analysis =>
          (setitem results name (Entry quantum_result analysis),
           logger INFO
             (name ++ ": " ++ (if success quantum_result then "SUCCESS" else "FAILED"))
             w2)
      end
  end.

Definition run_all_audio_operations (w : World) : SuiteResult * World :=
  fold_left suite_step operations
    ([], logger INFO "Starting pitchfork-echo-studio Quantum Audio Operations" w).

End Suite.

Arguments manager {Manager} w.
Arguments submitted {Manager} w.
Arguments logged {Manager} w.
Arguments mkWorld {Manager} manager submitted logged.

(** ** Metrics aggregator *)

Record PerformanceMetrics : Type := mkPerformanceMetrics {
  total_audio_operations : nat;
  successful_operations : nat;
  success_rate : Q;
  total_execution_time : Q;
  average_execution_time : Q;
  average_audio_quality : Q;
  audio_quantum_readiness : string;
  recommendations : list string
}.

(** The dictionary [get_audio_performance_metrics] returns: the status
    marker [{"status": ...}] or the eight-key metrics. *)
Inductive MetricsDict : Type :=
| MetricsStatus (status : string)
| Metrics (m : PerformanceMetrics).

(** ["quantum_result" in r and r["quantum_result"].success] *)
Definition ran_and_succeeded (r : SuiteEntry) : bool :=
  match r with
  | Entry quantum_result _ => success quantum_result
  | EntryError _ => false
  end.

(** [r["quantum_result"].execution_time] of a successful entry *)
Definition entry_time (r : SuiteEntry) : Q :=
  match r with
  | Entry quantum_result _ => execution_time quantum_result
  | EntryError _ => 0
  end.

(** [r["audio_analysis"].get("audio_quality", 0)] of a successful entry *)
Definition entry_quality (r : SuiteEntry) : Q :=
  match r with
  | Entry _ (Analysis a) => audio_quality a
  | _ => 0
  end.

Definition of_len (n : nat) : Q := inject_Z (Z.of_nat n).

Definition rec_production : string :=
  "Audio system ready for quantum-enhanced production".
Definition rec_advanced : string :=
  "Audio system ready for advanced quantum processing".
Definition rec_quality : string :=
  "Conscious-level audio quality achieved".

(** The aggregator, with the division it uses as a parameter, so that a
    statement can say which paths divide at all. *)
Definition metrics_with (div : Q -> Q -> result Q) (results : SuiteResult)
  : result MetricsDict :=
  let successful_ops := filter ran_and_succeeded (values results) in
  match successful_ops with
  | [] => Ok (MetricsStatus "no_successful_audio_operations")
  | _ :: _ =>
      let n := List.length successful_ops in
      let total_time := fsum (map entry_time successful_ops) in
      avg_quality <- div (fsum (map entry_quality successful_ops)) (of_len n) ;;
      rate <- div (of_len n) (of_len (List.length results)) ;;
      avg_time <- div total_time (of_len n) ;;
      Ok (Metrics {|
        total_audio_operations := List.length results;
        successful_operations := n;
        success_rate := rate;
        total_execution_time := total_time;
        average_execution_time := avg_time;
        average_audio_quality := avg_quality;
        audio_quantum_readiness :=
          if (4 <=? n)%nat then "CONSCIOUS"
          else if (2 <=? n)%nat then "HARMONIC" else "DEVELOPING";
        recommendations :=
          (if fge rate 0.8 then [rec_production]
           else if fge rate 0.6 then [rec_advanced] else [])
          ++ (if fge avg_quality 0.7 then [rec_quality] else [])
      |})
  end.

Definition get_audio_performance_metrics : SuiteResult -> result MetricsDict :=
  metrics_with Py.truediv.

(** ** Construction and the smoke test *)

Definition newline : string := String (ascii_of_nat 10) EmptyString.

(** [s * n] on strings *)
Fixpoint str_mul (s : string) (n : nat) : string :=
  match n with
  | O => EmptyString
  | S n' => s ++ str_mul s n'
  end.

(** [str(b)] for a boolean *)
Definition str_bool (b : bool) : string := if b then "True" else "False".

(** [analysis.get(key, default)] for the four keys the smoke test reads *)
Definition get_audio_quality (d : AnalysisDict) : Q :=
  match d with Analysis a => audio_quality a | AnalysisError _ => 0 end.
Definition get_optimal_audio (d : AnalysisDict) : string :=
  match d with Analysis a => optimal_audio a | AnalysisError _ => "N/A" end.
Definition get_quantum_harmony (d : AnalysisDict) : R :=
  match d with Analysis a => quantum_harmony a | AnalysisError _ => 0%R end.
Definition get_audio_diversity (d : AnalysisDict) : nat :=
  match d with Analysis a => audio_diversity a | AnalysisError _ => 0%nat end.

(** [metrics.get("recommendations", [])] *)
Definition get_recommendations (d : MetricsDict) : list string :=
  match d with Metrics m => recommendations m | MetricsStatus _ => [] end.

Section SmokeTest.

Variable Manager : Type.
Variable execute_quantum_job : QuantumJob -> Manager -> result JobResult * Manager.

(** The manager's constructor, which may raise. *)
Variable QbraidManager : option string -> result Manager.

(** The text of a float: under a fixed-point format with a number of
    decimals, and under [str].  Exact numbers have no text of their own, so
    the three conversions are left open. *)
Variable format_f : nat -> Q -> string.
Variable format_f_real : nat -> R -> string.
Variable str_float : Q -> string.

(** [PitchforkEchoStudioQuantum(api_key)], started with the log so far:
    nothing is logged when the manager's constructor raises. *)
Definition __init__ (api_key : option string) (log : list (LogLevel * string))
  : result (World Manager) :=
  m <- QbraidManager api_key ;;
  Ok (logger Manager INFO "pitchfork-echo-studio Quantum integration initialized"
        {| manager := m; submitted := []; logged := log |}).

(** What the smoke test changes while it runs: the world of the object it
    built and the lines printed so far, one per [print]. *)
Record Run : Type := mkRun {
  world : World Manager;
  stdout : list string
}.

Definition Step (A : Type) : Type := Run -> result A * Run.

Definition step_bind {A B : Type} (c : Step A) (k : A -> Step B) : Step B :=
  fun run =>
    match c run with
    | (Ok a, run') => k a run'
    | (Raise e, run') => (Raise e, run')
    end.

Definition done {A : Type} (a : A) : Step A := fun run => (Ok a, run).

Definition print (line : string) : Step unit :=
  fun run =>
    (Ok tt, {| world := world run; stdout := (stdout run ++ [line])%list |}).

(** A method that acts on the world alone. *)
Definition call {A : Type} (f : World Manager -> result A * World Manager)
  : Step A :=
  fun run =>
    let (r, w) := f (world run) in (r, {| world := w; stdout := stdout run |}).

(** A method that returns or raises and changes nothing. *)
Definition eval {A : Type} (r : result A) : Step A := fun run => (r, run).

Notation "x <~ c ;; k" := (step_bind c (fun x => k))
  (at level 61, c at next level, right associativity).
Notation "c ;;; k" := (step_bind c (fun _ => k))
  (at level 61, right associativity).

(** The three individual checks of the smoke test. *)
Definition check_synthesis : Step unit :=
  print (newline ++ "1. Testing Quantum Audio Synthesis...") ;;;
  synthesis_result <~
    call (quantum_audio_synthesis Manager execute_quantum_job 4 100) ;;
  print ("Synthesis: Success=" ++ str_bool (success synthesis_result)) ;;;
  if success synthesis_result then
    analysis <~ eval (analyze_audio_effectiveness synthesis_result) ;;
    print ("   Audio Quality: " ++ format_f 3 (get_audio_quality analysis)) ;;;
    print ("   Optimal Audio: " ++ get_optimal_audio analysis)
  else done tt.

Definition check_consciousness : Step unit :=
  print (newline ++ "2. Testing Quantum Consciousness Audio...") ;;;
  consciousness_result <~
    call (quantum_consciousness_audio Manager execute_quantum_job 3 100) ;;
  print ("Consciousness: Success=" ++ str_bool (success consciousness_result)) ;;;
  if success consciousness_result then
    analysis <~ eval (analyze_audio_effectiveness consciousness_result) ;;
    print ("   Quantum Harmony: "
           ++ format_f_real 3 (get_quantum_harmony analysis))
  else done tt.

Definition check_echo : Step unit :=
  print (newline ++ "3. Testing Quantum Echo Optimization...") ;;;
  echo_result <~
    call (quantum_echo_optimization Manager execute_quantum_job 4 100) ;;
  print ("Echo: Success=" ++ str_bool (success echo_result)) ;;;
  if success echo_result then
    analysis <~ eval (analyze_audio_effectiveness echo_result) ;;
    print ("   Audio Diversity: "
           ++ str_int (Z.of_nat (get_audio_diversity analysis)))
  else done tt.

(** The line printed for one entry of the suite's result. *)
Definition result_line (entry : string * SuiteEntry) : string :=
  let (name, result) := entry in
  match result with
  | Entry quantum_result _ =>
      let status := if success quantum_result then "PASS" else "FAIL" in
      let time_taken := execution_time quantum_result in
      "  " ++ name ++ ": " ++ status ++ " (" ++ format_f 2 time_taken ++ "s)"
  | EntryError _ => "  " ++ name ++ ": FAIL (error)"
  end.

(** The lines printed for [metrics.items()], the recommendations left
    out; a dictionary lists its keys in the order they were inserted. *)
Definition metrics_lines (d : MetricsDict) : list string :=
  match d with
  | MetricsStatus status => ["  status: " ++ status]
  | Metrics m =>
      ["  total_audio_operations: "
         ++ str_int (Z.of_nat (total_audio_operations m));
       "  successful_operations: "
         ++ str_int (Z.of_nat (successful_operations m));
       "  success_rate: " ++ str_float (success_rate m);
       "  total_execution_time: " ++ str_float (total_execution_time m);
       "  average_execution_time: " ++ str_float (average_execution_time m);
       "  average_audio_quality: " ++ str_float (average_audio_quality m);
       "  audio_quantum_readiness: " ++ audio_quantum_readiness m]
  end.

(** A [for] loop whose body is one [print]. *)
Fixpoint print_all (lines : list string) : Step unit :=
  match lines with
  | [] => done tt
  | line :: rest => print line ;;; print_all rest
  end.

(** The body of the smoke test's [try]. *)
Definition smoke_test_body : Step bool :=
  check_synthesis ;;;
  check_consciousness ;;;
  check_echo ;;;
  print (newline ++ "4. Running full Quantum Audio Processing Suite...") ;;;
  audio_results <~
    call (fun w =>
            let (results, w') :=
              run_all_audio_operations Manager execute_quantum_job w in
            (Ok results, w')) ;;
  print (newline ++ "5. Analyzing Audio Processing Performance...") ;;;
  metrics <~ eval (get_audio_performance_metrics audio_results) ;;
  print (newline ++ "Audio Operations Results:") ;;;
  print_all (map result_line audio_results) ;;;
  print (newline ++ "Audio Processing Performance Metrics:") ;;;
  print_all (metrics_lines metrics) ;;;
  print "  Recommendations:" ;;;
  print_all (map (fun rec => "    - " ++ rec) (get_recommendations metrics)) ;;;
  print (newline ++ "pitchfork-echo-studio Quantum Audio integration completed!") ;;;
  done true.

Definition banner : list string :=
  ["Testing pitchfork-echo-studio Quantum Audio Integration"; str_mul "=" 55].

Definition error_line (e : exn) : string :=
  "ERROR: pitchfork-echo-studio integration test failed: " ++ Py.str e.

(** [test_pitchfork_echo_studio_integration()], started with the log so
    far: its verdict, what it printed, and the world of the object it built
    when it got to build one. *)
Definition test_pitchfork_echo_studio_integration (log : list (LogLevel * string))
  : bool * list string * option (World Manager) :=
  match __init__ None log with
  | Raise e => (false, (banner ++ [error_line e])%list, None)
  | Ok w =>
      match smoke_test_body {| world := w; stdout := banner |} with
      | (Ok verdict, run) => (verdict, stdout run, Some (world run))
      | (Raise e, run) =>
          (false, (stdout run ++ [error_line e])%list, Some (world run))
      end
  end.

(** The script's exit status: [sys.exit(0 if success else 1)]. *)
Definition main (log : list (LogLevel * string)) : Z :=
  let '(success, _, _) := test_pitchfork_echo_studio_integration log in
  if success then 0 else 1.

End SmokeTest.

Arguments world {Manager} r.
Arguments stdout {Manager} r.
Arguments mkRun {Manager} world stdout.

(** * Vocabulary of the statements, and sample inputs *)

(** ** On the analyzer *)

(** The number of labels whose count is strictly positive. *)
Definition positive_labels (cs : list (string * Z)) : nat :=
  List.length (filter (Z.ltb 0) (values cs)).

(** A successful result over 10 shots, six of them on one label. *)
Definition six_of_ten : JobResult :=
  {| success := true;
     counts := [("00", 3); ("01", 6); ("11", 1)];
     execution_time := 2 |}.

(** A successful result in which one label was reported with count 0. *)
Definition with_zero_label : JobResult :=
  {| success := true;
     counts := [("00", 3); ("11", 0)];
     execution_time := 1 |}.

(** A successful result whose total reaches the flush bound: one shot on
    "a" against [2^1075] on "b". *)
Definition underflow_counts : list (string * Z) :=
  [("a", 1); ("b", Py.flush_bound)].

Definition underflow_result : JobResult :=
  {| success := true; counts := underflow_counts; execution_time := 1 |}.

(** All the mass on one label, a second label being listed with count 0. *)
Definition single_counts : list (string * Z) := [("0101", 100); ("1010", 0)].

(** The base-2 logarithm, as a total function on the reals. *)
Definition lb (x : R) : R := (ln x / ln 2)%R.

Definition scenario_counts : list (string * Z) :=
  [("0101", 80%Z); ("1010", 20%Z)].

(** The result of the 80/20 scenario; its execution time is left open. *)
Definition scenario (t : Q) : JobResult :=
  {| success := true; counts := scenario_counts; execution_time := t |}.

(** ** On the aggregator *)

(** The number of entries that ran and succeeded. *)
Definition successes (results : SuiteResult) : nat :=
  List.length (filter ran_and_succeeded (values results)).

(** A suite result with one raised operation and one failed job. *)
Definition nothing_succeeded : SuiteResult :=
  [("Audio Synthesis", EntryError "device unavailable");
   ("Echo Optimization",
    Entry {| success := false; counts := []; execution_time := 0 |}
          (AnalysisError "quantum_audio_failed"))].

(** The entry of a successful operation that took [t] seconds, with an
    analysis of quality [q]. *)
Definition good_entry (t : Q) (q : Q) : SuiteEntry :=
  Entry (scenario t)
    (Analysis {| audio_quality := q;
                 optimal_audio := "0101";
                 audio_diversity := 2;
                 quantum_harmony := 0%R;
                 audio_insights := _generate_audio_insights (scenario t) |}).

(** Four successes out of five operations. *)
Definition four_of_five : SuiteResult :=
  [("Audio Synthesis", good_entry 1 0.8);
   ("Consciousness Audio", good_entry 2 0.5);
   ("Echo Optimization", EntryError "device unavailable");
   ("Frequency Harmonization", good_entry 1 0.9);
   ("Spatial Audio", good_entry 3 0.6)].

(** ** On the suite runner *)

(** The suite's names and the jobs its operations submit, in order. *)
Definition suite_names : list string :=
  ["Audio Synthesis"; "Consciousness Audio"; "Echo Optimization";
   "Frequency Harmonization"; "Spatial Audio"].

Definition suite_jobs : list QuantumJob :=
  [synthesis_job 4 100; consciousness_job 3 100; echo_job 4 100;
   frequency_job 3 100; spatial_job 4 100].

(** The entry the loop stores for what an operation did. *)
Definition entry_of (o : result JobResult) : SuiteEntry :=
  match o with
  | Raise e => EntryError (Py.str e)
  | Ok quantum_result =>
      match analyze_audio_effectiveness quantum_result with
      | Ok analysis => Entry quantum_result analysis
      | Raise e => EntryError (Py.str e)
      end
  end.

Definition raised (o : result JobResult) : bool :=
  match o with Raise _ => true | Ok _ => false end.

Definition is_pair (e : SuiteEntry) : bool :=
  match e with Entry _ _ => true | EntryError _ => false end.

Definition is_error (e : SuiteEntry) : bool := negb (is_pair e).

(** An operation returned a result and the analyzer raised on it. *)
Definition analysis_raised (o : result JobResult) : bool :=
  match o with
  | Raise _ => false
  | Ok quantum_result =>
      match analyze_audio_effectiveness quantum_result with
      | Ok _ => false
      | Raise _ => true
      end
  end.

(** A sufficient test for the analyzer not to raise: a failed job, or a
    successful one whose well-formed mapping is not empty and has a positive
    total below the flush bound. *)
Definition analysable (r : JobResult) : bool :=
  negb (success r)
  || (match counts r with [] => false | _ :: _ => true end
      && outcome_counts (counts r)
      && (0 <? Py.sum (values (counts r)))
      && (Py.sum (values (counts r)) <? Py.flush_bound)).

(** What the manager answers to a sequence of jobs, one after the other. *)
Fixpoint outcomes {Manager : Type}
  (execute_quantum_job : QuantumJob -> Manager -> result JobResult * Manager)
  (jobs : list QuantumJob) (m : Manager) : list (result JobResult) :=
  match jobs with
  | [] => []
  | job :: rest =>
      fst (execute_quantum_job job m)
      :: outcomes execute_quantum_job rest (snd (execute_quantum_job job m))
  end.

(** A manager that counts its calls and answers the [n]-th one from a
    script. *)
Definition scripted (script : nat -> result JobResult)
  : QuantumJob -> nat -> result JobResult * nat :=
  fun _ n => (script n, S n).

Definition fresh : World nat :=
  {| manager := 0%nat; submitted := []; logged := [] |}.

Definition failed_result : JobResult :=
  {| success := false; counts := []; execution_time := 0 |}.

(** A result that claims success and reports no outcome at all. *)
Definition empty_result : JobResult :=
  {| success := true; counts := []; execution_time := 1 |}.

(** First and third operation raise; the others return. *)
Definition two_raise (n : nat) : result JobResult :=
  match n with
  | 0%nat => Raise (Exception "device unavailable")
  | 2%nat => Raise (Exception "quota exceeded")
  | 3%nat => Ok failed_result
  | _ => Ok (scenario 1)
  end.

(** First and second operation raise; the third returns the empty result. *)
Definition two_raise_one_empty (n : nat) : result JobResult :=
  match n with
  | 0%nat => Raise (Exception "device unavailable")
  | 1%nat => Raise (Exception "quota exceeded")
  | 2%nat => Ok empty_result
  | _ => Ok (scenario 1)
  end.

(** ** Further inputs and vocabulary *)

(** A successful result in which two labels share the greatest count. *)
Definition tied_result : JobResult :=
  {| success := true;
     counts := [("00", 2); ("01", 4); ("10", 4); ("11", 0)];
     execution_time := 45 |}.

Definition insight_fast : string := "Fast audio processing achieved".
Definition insight_diverse : string :=
  "High audio diversity - excellent creative potential".
Definition insight_fallback : string :=
  "Fallback to classical audio algorithms recommended".

(** The Shannon entropy, in bits, of the distribution [v / total] over the
    positive entries of [vs]. *)
Fixpoint entropy (total : Z) (vs : list Z) : R :=
  match vs with
  | [] => 0%R
  | v :: rest =>
      ((if 0 <? v then - (IZR v / IZR total * lb (IZR v / IZR total)) else 0)
       + entropy total rest)%R
  end.

(** A positive count whose probability the loop cannot take the logarithm
    of: the total is negative, or the quotient is flushed to 0.0, or it is
    too large for a float. *)
Definition out_of_domain (total count : Z) : bool :=
  (0 <? count)
  && ((total <? 0) || Py.underflows count total || Py.overflows count total).

(** The exception the loop raises on such a count. *)
Definition harmony_error (total count : Z) : exn :=
  if Py.overflows count total
  then OverflowError "integer division result too large for a float"
  else ValueError "math domain error".

(** The same distribution observed over [c] times the shots. *)
Definition scale_counts (c : Z) (cs : list (string * Z)) : list (string * Z) :=
  map (fun kv => (fst kv, c * snd kv)) cs.

Definition scale_result (c : Z) (r : JobResult) : JobResult :=
  {| success := success r;
     counts := scale_counts c (counts r);
     execution_time := execution_time r |}.

(** The mapping without its zero-count labels. *)
Definition observed (cs : list (string * Z)) : list (string * Z) :=
  filter (fun kv => negb (snd kv =? 0)) cs.


(** The record the loop logs once an operation is through: at [ERROR]
    level when the call or the analysis raised, at [INFO] level with the
    job's verdict otherwise. *)
Definition outcome_record (name : string) (o : result JobResult)
  : LogLevel * string :=
  match o with
  | Raise e => (ERROR, name ++ " failed: " ++ Py.str e)
  | Ok quantum_result =>
      match analyze_audio_effectiveness quantum_result with
      | Raise e => (ERROR, name ++ " failed: " ++ Py.str e)
      | Ok _ =>
          (INFO,
           name ++ ": " ++ (if success quantum_result then "SUCCESS" else "FAILED"))
      end
  end.

(** The records of a whole run, operation by operation. *)
Fixpoint suite_records (names : list string) (os : list (result JobResult))
  : list (LogLevel * string) :=
  match names, os with
  | name :: names', o :: os' =>
      (INFO, "Executing " ++ name ++ "...")
      :: outcome_record name o :: suite_records names' os'
  | _, _ => []
  end.

Definition is_ERROR (r : LogLevel * string) : bool :=
  match fst r with ERROR => true | INFO => false end.

Definition start_record : LogLevel * string :=
  (INFO, "Starting pitchfork-echo-studio Quantum Audio Operations").

(** The manager a sequence of jobs leaves behind. *)
Fixpoint manager_after {Manager : Type}
  (execute_quantum_job : QuantumJob -> Manager -> result JobResult * Manager)
  (jobs : list QuantumJob) (m : Manager) : Manager :=
  match jobs with
  | [] => m
  | job :: rest =>
      manager_after execute_quantum_job rest (snd (execute_quantum_job job m))
  end.

(** ** On the smoke test *)

(** The jobs of the three individual checks, in order. *)
Definition individual_jobs : list QuantumJob :=
  [synthesis_job 4 100; consciousness_job 3 100; echo_job 4 100].

(** An individual check gets through when its call returns and, on a
    successful result, the analysis returns as well. *)
Definition check_passes (o : result JobResult) : bool :=
  match o with
  | Raise _ => false
  | Ok r =>
      if success r then
        match analyze_audio_effectiveness r with
        | Ok _ => true
        | Raise _ => false
        end
      else true
  end.

Definition completed_line : string :=
  newline ++ "pitchfork-echo-studio Quantum Audio integration completed!".

Definition init_record : LogLevel * string :=
  (INFO, "pitchfork-echo-studio Quantum integration initialized").

(** The common shape of the three checks: a header, one call, the verdict
    line and, on success, the analysis and what is printed of it. *)
Definition check_with {Manager : Type}
  (execute_quantum_job : QuantumJob -> Manager -> result JobResult * Manager)
  (header : string) (job : QuantumJob) (label : string)
  (report : AnalysisDict -> Step Manager unit) : Step Manager unit :=
  step_bind Manager (print Manager header) (fun _ =>
  step_bind Manager (call Manager (execute Manager execute_quantum_job job)) (fun r =>
  step_bind Manager (print Manager (label ++ str_bool (success r))) (fun _ =>
  if success r then
    step_bind Manager (eval Manager (analyze_audio_effectiveness r)) report
  else done Manager tt))).

(** A step that prints the given lines, returns, and does nothing else. *)
Definition prints {Manager A : Type} (c : Step Manager A) (a : A)
  (lines : list string) : Prop :=
  forall run,
    c run = (Ok a, {| world := world run; stdout := (stdout run ++ lines)%list |}).

(** A step that prints and does nothing else. *)
Definition prints_only {Manager A : Type} (c : Step Manager A) (a : A) : Prop :=
  forall run,
  exists lines,
    c run = (Ok a, {| world := world run; stdout := (stdout run ++ lines)%list |}).

Section SmokeTestParts.

Variable Manager : Type.
Variable execute_quantum_job : QuantumJob -> Manager -> result JobResult * Manager.
Variable format_f : nat -> Q -> string.
Variable str_float : Q -> string.

(** The lines of the report, in order. *)
Definition report_lines (audio_results : SuiteResult) (metrics : MetricsDict)
  : list string :=
  ((newline ++ "Audio Operations Results:")%string
   :: map (result_line format_f) audio_results
   ++ (newline ++ "Audio Processing Performance Metrics:")%string
   :: metrics_lines str_float metrics
   ++ "  Recommendations:"
   :: map (fun rec => "    - " ++ rec)%string (get_recommendations metrics)
   ++ [completed_line])%list.

(** What the smoke test prints once the suite has run and the metrics are
    there. *)
Definition print_report (audio_results : SuiteResult) (metrics : MetricsDict)
  : Step Manager bool :=
  step_bind Manager (print Manager (newline ++ "Audio Operations Results:")) (fun _ =>
  step_bind Manager
    (print_all Manager (map (result_line format_f) audio_results)) (fun _ =>
  step_bind Manager
    (print Manager (newline ++ "Audio Processing Performance Metrics:")) (fun _ =>
  step_bind Manager (print_all Manager (metrics_lines str_float metrics)) (fun _ =>
  step_bind Manager (print Manager "  Recommendations:") (fun _ =>
  step_bind Manager
    (print_all Manager
       (map (fun rec => "    - " ++ rec) (get_recommendations metrics))) (fun _ =>
  step_bind Manager (print Manager completed_line) (fun _ =>
  done Manager true))))))).

(** The smoke test from its fourth step on: the suite, the metrics and the
    report. *)
Definition run_suite_and_report : Step Manager bool :=
  step_bind Manager
    (print Manager
       (newline ++ "4. Running full Quantum Audio Processing Suite...")) (fun _ =>
  step_bind Manager
    (call Manager
       (fun w =>
          let (results, w') :=
            run_all_audio_operations Manager execute_quantum_job w in
          (Ok results, w'))) (fun audio_results =>
  step_bind Manager
    (print Manager
       (newline ++ "5. Analyzing Audio Processing Performance...")) (fun _ =>
  step_bind Manager
    (eval Manager (get_audio_performance_metrics audio_results)) (fun metrics =>
  print_report audio_results metrics)))).

End SmokeTestParts.

(** A manager that answers its first three calls and raises from then on:
    every operation of the suite fails. *)
Definition suite_fails (n : nat) : result JobResult :=
  if (n <? 3)%nat then Ok (scenario 1)
  else Raise (Exception "device unavailable").

(** A constructor that hands out a manager which has not been called. *)
Definition new_counter (api_key : option string) : result nat := Ok 0%nat.

(** Stand-ins for the three float conversions. *)
Definition no_digits (decimals : nat) (x : Q) : string := "?".
Definition no_digits_real (decimals : nat) (x : R) : string := "?".
Definition no_text (x : Q) : string := "?".

(** * Properties *)

(** ** Sums and the maximum scan *)

Lemma fold_add_shift (xs : list Z) (a : Z) :
  fold_left Z.add xs a = a + Py.sum xs.
Proof.
  unfold Py.sum. revert a.
  induction xs as [|x xs IH]; intro a; simpl.
  - lia.
  - rewrite (IH (a + x)), (IH x). lia.
Qed.

Lemma sum_cons (x : Z) (xs : list Z) : Py.sum (x :: xs) = x + Py.sum xs.
Proof. unfold Py.sum at 1. simpl. apply fold_add_shift. Qed.

Lemma sum_nonneg (xs : list Z) :
  Forall (fun v => 0 <= v) xs -> 0 <= Py.sum xs.
Proof.
  induction 1 as [|x xs Hx _ IH].
  - unfold Py.sum; simpl; lia.
  - rewrite sum_cons. lia.
Qed.

Lemma le_sum (xs : list Z) :
  Forall (fun v => 0 <= v) xs -> Forall (fun v => v <= Py.sum xs) xs.
Proof.
  induction 1 as [|x xs Hx Hxs IH].
  - constructor.
  - rewrite sum_cons. constructor.
    + pose proof (sum_nonneg xs Hxs). lia.
    + eapply Forall_impl; [|exact IH]. simpl. intros; lia.
Qed.

Lemma sum_all_zero (xs : list Z) :
  Forall (fun v => v = 0) xs -> Py.sum xs = 0.
Proof.
  induction 1 as [|x xs Hx _ IH].
  - reflexivity.
  - rewrite sum_cons. lia.
Qed.

Lemma max_scan_in (items : list (string * Z)) (best : string * Z) :
  In (max_scan best items) (best :: items).
Proof.
  revert best.
  induction items as [|item rest IH]; intro best; simpl.
  - now left.
  - destruct (snd best <? snd item).
    + right. apply IH.
    + destruct (IH best) as [H|H]; [now left | now right; right].
Qed.

Lemma max_scan_upper (items : list (string * Z)) (best : string * Z) :
  snd best <= snd (max_scan best items)
  /\ Forall (fun kv => snd kv <= snd (max_scan best items)) items.
Proof.
  revert best.
  induction items as [|item rest IH]; intro best; simpl.
  - split; [lia | constructor].
  - destruct (snd best <? snd item) eqn:E.
    + apply Z.ltb_lt in E. destruct (IH item) as [H1 H2].
      split; [lia | now constructor].
    + apply Z.ltb_ge in E. destruct (IH best) as [H1 H2].
      split; [exact H1 | constructor; [lia | exact H2]].
Qed.

(** The invariant, unfolded. *)
Lemma outcome_counts_nonneg (cs : list (string * Z)) :
  outcome_counts cs = true -> Forall (fun v => 0 <= v) (values cs).
Proof.
  unfold outcome_counts. intro H. apply andb_prop in H as [_ H].
  rewrite forallb_forall in H. apply Forall_forall.
  intros v Hv. apply in_map_iff in Hv as [kv [<- Hkv]].
  apply H in Hkv. lia.
Qed.

(** ** Integer true division *)

Lemma flush_bound_gt_1 : 1 < Py.flush_bound.
Proof. reflexivity. Qed.

Lemma overflow_bound_gt_1 : 1 < Py.overflow_bound.
Proof. reflexivity. Qed.

(** A positive part of a total below the flush bound: the quotient is
    neither too large nor too small for a float. *)
Lemma int_truediv_part (a b : Z) :
  0 < a <= b -> b < Py.flush_bound ->
  Py.int_truediv a b = Ok (inject_Z a / inject_Z b)%Q.
Proof.
  intros Hab Hb. pose proof overflow_bound_gt_1 as Ho.
  unfold Py.int_truediv, Py.overflows, Py.underflows.
  rewrite (Z.abs_eq a), (Z.abs_eq b) by lia.
  replace (b =? 0) with false by (symmetry; apply Z.eqb_neq; lia).
  replace (Py.overflow_bound * b <=? a) with false
    by (symmetry; apply Z.leb_gt; nia).
  replace (a * Py.flush_bound <=? b) with false
    by (symmetry; apply Z.leb_gt; nia).
  reflexivity.
Qed.

(** The whole of a positive total, whatever its size. *)
Lemma int_truediv_whole (t : Z) :
  0 < t -> Py.int_truediv t t = Ok (inject_Z t / inject_Z t)%Q.
Proof.
  intro Ht. pose proof overflow_bound_gt_1 as Ho.
  pose proof flush_bound_gt_1 as Hf.
  unfold Py.int_truediv, Py.overflows, Py.underflows.
  rewrite (Z.abs_eq t) by lia.
  replace (t =? 0) with false by (symmetry; apply Z.eqb_neq; lia).
  replace (Py.overflow_bound * t <=? t) with false
    by (symmetry; apply Z.leb_gt; nia).
  replace (t * Py.flush_bound <=? t) with false
    by (symmetry; apply Z.leb_gt; nia).
  reflexivity.
Qed.

Lemma Q2R_ratio (a b : Z) :
  b <> 0 -> Q2R (inject_Z a / inject_Z b) = (IZR a / IZR b)%R.
Proof.
  intro Hb. assert (IZR b <> 0%R) by now apply not_0_IZR.
  rewrite Q2R_div.
  - unfold Q2R. simpl. field. assumption.
  - intro H0. unfold Qeq in H0. simpl in H0. lia.
Qed.

(** ** The harmony loop *)

Open Scope R_scope.

Lemma ln_2_pos : 0 < ln 2.
Proof. rewrite <- ln_1. apply ln_increasing; lra. Qed.

Lemma log2_value (x : R) : 0 < x -> Py.log2 x = Ok (ln x / ln 2).
Proof. intro H. unfold Py.log2. destruct (Rlt_dec 0 x); [reflexivity | contradiction]. Qed.

Lemma log2_nonpos (x : R) : 0 < x <= 1 -> ln x / ln 2 <= 0.
Proof.
  intros [H0 H1].
  assert (ln x <= 0).
  { destruct H1 as [H1 | ->]; [|rewrite ln_1; lra].
    rewrite <- ln_1. left. now apply ln_increasing. }
  pose proof ln_2_pos. unfold Rdiv.
  assert (0 < / ln 2) by now apply Rinv_0_lt_compat.
  nra.
Qed.

Lemma probability_range (count total : Z) :
  (0 < count <= total)%Z -> 0 < IZR count / IZR total <= 1.
Proof.
  intros [H0 H1].
  assert (0 < IZR count) by now apply IZR_lt.
  assert (IZR count <= IZR total) by now apply IZR_le.
  assert (0 < IZR total) by lra.
  split.
  - now apply Rdiv_lt_0_compat.
  - apply Rmult_le_reg_r with (IZR total); [assumption|].
    unfold Rdiv. rewrite Rmult_assoc, Rinv_l; lra.
Qed.

(** One turn of the loop on a count whose probability is the exact
    quotient. *)
Lemma harmony_loop_turn (total count : Z) (rest : list Z) (h : R) :
  (0 < count)%Z -> (0 < total)%Z ->
  Py.int_truediv count total = Ok (inject_Z count / inject_Z total)%Q ->
  harmony_loop total (count :: rest) h
  = harmony_loop total rest
      (h - IZR count / IZR total * (ln (IZR count / IZR total) / ln 2)).
Proof.
  intros Hc Ht Hdiv. cbn [harmony_loop].
  replace (0 <? count)%Z with true by (symmetry; now apply Z.ltb_lt).
  rewrite Hdiv. cbn [Py.bind]. rewrite Q2R_ratio by lia.
  assert (0 < IZR count) by now apply IZR_lt.
  assert (0 < IZR total) by now apply IZR_lt.
  rewrite log2_value by now apply Rdiv_lt_0_compat.
  reflexivity.
Qed.

(** On counts between 0 and a total below the flush bound, the loop never
    leaves the domain of the logarithm, and the accumulator only grows. *)
Lemma harmony_loop_grows (total : Z) (vs : list Z) :
  (total < Py.flush_bound)%Z ->
  Forall (fun v => (0 <= v <= total)%Z) vs ->
  forall h, exists h', harmony_loop total vs h = Ok h' /\ h <= h'.
Proof.
  intro Hb. induction 1 as [|count rest Hc _ IH]; intro h.
  - exists h. split; [reflexivity | lra].
  - destruct (Z.lt_ge_cases 0 count) as [E|E].
    + rewrite harmony_loop_turn;
        [|assumption | lia | apply int_truediv_part; [lia | assumption]].
      assert (Hp : 0 < IZR count / IZR total <= 1) by (apply probability_range; lia).
      destruct (IH (h - IZR count / IZR total * (ln (IZR count / IZR total) / ln 2)))
        as [h' [Hh' Hle]].
      exists h'. split; [exact Hh'|].
      pose proof (log2_nonpos _ Hp). nra.
    + cbn [harmony_loop].
      replace (0 <? count)%Z with false by (symmetry; now apply Z.ltb_ge).
      apply IH.
Qed.

(** When every positive count is the whole total, each term of the loop is
    [1 * log2 1], and the accumulator does not move. *)
Lemma harmony_loop_still (total : Z) (vs : list Z) :
  Forall (fun v => (0 < v -> v = total)%Z) vs ->
  forall h, harmony_loop total vs h = Ok h.
Proof.
  induction 1 as [|count rest Hc _ IH]; intro h.
  - reflexivity.
  - destruct (Z.lt_ge_cases 0 count) as [E|E].
    + pose proof (Hc E) as ->.
      rewrite harmony_loop_turn;
        [|assumption | assumption | now apply int_truediv_whole].
      assert (Ht : IZR total <> 0) by (apply not_0_IZR; lia).
      replace (IZR total / IZR total) with 1 by (field; exact Ht).
      rewrite ln_1. replace (h - 1 * (0 / ln 2)) with h; [apply IH|].
      unfold Rdiv. ring.
    + cbn [harmony_loop].
      replace (0 <? count)%Z with false by (symmetry; now apply Z.ltb_ge).
      apply IH.
Qed.

Lemma min_range (x : R) : 0 <= x -> 0 <= Py.min 1 x <= 1.
Proof. intro H. unfold Py.min. destruct (Rlt_dec x 1); lra. Qed.

Close Scope R_scope.

(** ** The analyzer on a well-formed result *)

Lemma no_positive_all_zero (vs : list Z) :
  Forall (fun v => 0 <= v) vs -> filter (Z.ltb 0) vs = [] ->
  Forall (fun v => v = 0) vs.
Proof.
  induction 1 as [|x xs Hx _ IH]; simpl; intro H.
  - constructor.
  - destruct (0 <? x) eqn:E; [discriminate|].
    apply Z.ltb_ge in E. constructor; [lia | now apply IH].
Qed.

Lemma one_positive_is_total (vs : list Z) :
  Forall (fun v => 0 <= v) vs ->
  List.length (filter (Z.ltb 0) vs) = 1%nat ->
  Forall (fun v => 0 < v -> v = Py.sum vs) vs.
Proof.
  induction 1 as [|x xs Hx Hxs IH]; simpl; intro H.
  - constructor.
  - rewrite sum_cons. destruct (0 <? x) eqn:E.
    + simpl in H. injection H as H. apply length_zero_iff_nil in H.
      pose proof (no_positive_all_zero xs Hxs H) as Hz.
      rewrite (sum_all_zero xs Hz). constructor; [lia|].
      eapply Forall_impl; [|exact Hz]. simpl. lia.
    + apply Z.ltb_ge in E. assert (x = 0) by lia. subst x.
      constructor; [lia|]. simpl. now apply IH.
Qed.

(** All the mass on one label: the harmony is 0, whatever the total. *)
Lemma harmony_single (cs : list (string * Z)) :
  outcome_counts cs = true ->
  positive_labels cs = 1%nat ->
  _calculate_harmony cs = Ok 0%R.
Proof.
  intros Hwf Hone. pose proof (outcome_counts_nonneg cs Hwf) as Hnn.
  unfold positive_labels in Hone.
  pose proof (one_positive_is_total _ Hnn Hone) as Hs.
  unfold _calculate_harmony.
  destruct (Py.sum (values cs) =? 0); [reflexivity|].
  rewrite (harmony_loop_still _ _ Hs). cbn [Py.bind]. f_equal.
  unfold Py.min. destruct (Rlt_dec (0 / 4) 1); lra.
Qed.

(** A total below the flush bound: the harmony is a number between 0 and
    1. *)
Lemma harmony_total (cs : list (string * Z)) :
  outcome_counts cs = true ->
  Py.sum (values cs) < Py.flush_bound ->
  exists h, _calculate_harmony cs = Ok h
            /\ (0 <= h <= 1)%R
            /\ (positive_labels cs = 1%nat -> h = 0%R).
Proof.
  intros Hwf Hb. pose proof (outcome_counts_nonneg cs Hwf) as Hnn.
  assert (Hsingle : forall h, _calculate_harmony cs = Ok h ->
                              positive_labels cs = 1%nat -> h = 0%R).
  { intros h Hh Hone. rewrite (harmony_single cs Hwf Hone) in Hh.
    now injection Hh as <-. }
  unfold _calculate_harmony in *.
  destruct (Py.sum (values cs) =? 0) eqn:E.
  - exists 0%R. split; [reflexivity|]. split; [lra | now apply Hsingle].
  - assert (Hr : Forall (fun v => 0 <= v <= Py.sum (values cs)) (values cs)).
    { pose proof (le_sum _ Hnn) as Hle. rewrite Forall_forall in *.
      intros v Hv. split; [now apply Hnn | now apply Hle]. }
    destruct (harmony_loop_grows _ _ Hb Hr 0%R) as [h [Hh Hle]].
    rewrite Hh in *. cbn [Py.bind] in *.
    exists (Py.min 1 (h / 4)). split; [reflexivity|]. split.
    + apply min_range. lra.
    + now apply Hsingle.
Qed.

Lemma ratio_range (m n : Z) :
  0 <= m <= n -> 0 < n -> (0 <= inject_Z m / inject_Z n <= 1)%Q.
Proof.
  intros Hm Hn. destruct n as [|p|p]; try lia.
  unfold Qdiv, Qinv, Qmult, Qle, inject_Z. simpl. lia.
Qed.

(** The greatest count of a non-negative mapping of positive total is a
    positive part of that total. *)
Lemma max_is_part (item : string * Z) (rest : list (string * Z)) :
  Forall (fun v => 0 <= v) (values (item :: rest)) ->
  0 < Py.sum (values (item :: rest)) ->
  0 < snd (max_scan item rest) <= Py.sum (values (item :: rest)).
Proof.
  intros Hnn Hpos.
  pose proof (max_scan_in rest item) as Hin.
  destruct (max_scan_upper rest item) as [Hu1 Hu2].
  pose proof (le_sum _ Hnn) as Hle. rewrite Forall_forall in Hle.
  split.
  - destruct (Z.lt_ge_cases 0 (snd (max_scan item rest))) as [H|H]; [exact H|].
    exfalso.
    assert (Hz : Forall (fun v => v = 0) (values (item :: rest))).
    { rewrite Forall_forall in Hnn. apply Forall_forall. intros v Hv.
      specialize (Hnn v Hv). unfold values in Hv.
      apply in_map_iff in Hv as [kv [<- Hkv]]. simpl in Hnn.
      destruct Hkv as [<- | Hkv]; [lia|].
      rewrite Forall_forall in Hu2. specialize (Hu2 kv Hkv). lia. }
    rewrite (sum_all_zero _ Hz) in Hpos. lia.
  - apply Hle. unfold values. apply in_map. exact Hin.
Qed.

(** What the analyzer returns on a successful result whose mapping is not
    empty and sums to a positive total below the flush bound. *)
Lemma analyze_report (result : JobResult) (item : string * Z) (rest : list (string * Z)) :
  success result = true ->
  counts result = item :: rest ->
  outcome_counts (counts result) = true ->
  0 < Py.sum (values (counts result)) < Py.flush_bound ->
  exists h,
    _calculate_harmony (counts result) = Ok h /\
    analyze_audio_effectiveness result =
      Ok (Analysis {|
        audio_quality :=
          (inject_Z (snd (max_scan item rest))
           / inject_Z (Py.sum (values (counts result))))%Q;
        optimal_audio := fst (max_scan item rest);
        audio_diversity := List.length (counts result);
        quantum_harmony := h;
        audio_insights := _generate_audio_insights result |}).
Proof.
  intros Hs Hc Hwf [Hpos Hb].
  destruct (harmony_total _ Hwf Hb) as [h [Hh _]].
  exists h. split; [exact Hh|].
  pose proof (outcome_counts_nonneg _ Hwf) as Hnn.
  unfold analyze_audio_effectiveness. rewrite Hs. cbn [negb].
  rewrite Hh. rewrite Hc in *. cbn [Py.max_by_count Py.bind].
  rewrite int_truediv_part; [reflexivity | now apply max_is_part | exact Hb].
Qed.

(** What the analyzer returns when all the mass is on one label, whatever
    the total. *)
Lemma analyze_single (result : JobResult) (item : string * Z) (rest : list (string * Z)) :
  success result = true ->
  counts result = item :: rest ->
  outcome_counts (counts result) = true ->
  positive_labels (counts result) = 1%nat ->
  0 < snd (max_scan item rest)
  /\ snd (max_scan item rest) = Py.sum (values (counts result))
  /\ analyze_audio_effectiveness result =
       Ok (Analysis {|
         audio_quality :=
           (inject_Z (Py.sum (values (counts result)))
            / inject_Z (Py.sum (values (counts result))))%Q;
         optimal_audio := fst (max_scan item rest);
         audio_diversity := List.length (counts result);
         quantum_harmony := 0%R;
         audio_insights := _generate_audio_insights result |}).
Proof.
  intros Hs Hc Hwf Hone.
  pose proof (outcome_counts_nonneg _ Hwf) as Hnn.
  pose proof (harmony_single _ Hwf Hone) as Hh.
  unfold positive_labels in Hone.
  pose proof (one_positive_is_total _ Hnn Hone) as Ht.
  assert (Hpos : 0 < Py.sum (values (counts result))).
  { destruct (filter (Z.ltb 0) (values (counts result))) as [|v vs] eqn:F;
      [discriminate|].
    assert (Hv : In v (filter (Z.ltb 0) (values (counts result))))
      by (rewrite F; now left).
    apply filter_In in Hv as [Hv Hp]. apply Z.ltb_lt in Hp.
    rewrite Forall_forall in Ht. rewrite <- (Ht v Hv Hp). exact Hp. }
  rewrite Hc in Hnn, Hpos, Ht.
  destruct (max_is_part item rest Hnn Hpos) as [Hm _].
  assert (Hmax : snd (max_scan item rest) = Py.sum (values (item :: rest))).
  { rewrite Forall_forall in Ht. apply Ht; [|exact Hm].
    unfold values. apply in_map. apply max_scan_in. }
  split; [exact Hm|]. rewrite Hc. split; [exact Hmax|].
  unfold analyze_audio_effectiveness. rewrite Hs. cbn [negb].
  rewrite Hc in *. rewrite Hh. cbn [Py.max_by_count Py.bind].
  rewrite Hmax. rewrite int_truediv_whole by exact Hpos. reflexivity.
Qed.

(** The analyzer and the harmony on a mapping whose total reaches the
    flush bound: the probability of the count 1 is 0.0, and the logarithm
    raises. *)
Lemma harmony_underflow :
  _calculate_harmony underflow_counts = Raise (ValueError "math domain error").
Proof.
  unfold _calculate_harmony, underflow_counts.
  replace (Py.sum (values [("a", 1); ("b", Py.flush_bound)]) =? 0) with false
    by (symmetry; vm_compute; reflexivity).
  cbn [values map snd harmony_loop].
  replace (0 <? 1) with true by reflexivity.
  replace (Py.int_truediv 1 (Py.sum [1; Py.flush_bound])) with (Ok 0%Q)
    by (symmetry; vm_compute; reflexivity).
  cbn [Py.bind]. unfold Py.log2.
  destruct (Rlt_dec 0 (Q2R 0)) as [H|_]; [|reflexivity].
  exfalso. unfold Q2R in H. simpl in H. lra.
Qed.

Lemma analyze_underflow :
  analyze_audio_effectiveness underflow_result
  = Raise (ValueError "math domain error").
Proof.
  unfold analyze_audio_effectiveness, underflow_result.
  cbn [success counts negb]. fold underflow_counts.
  rewrite harmony_underflow. unfold underflow_counts.
  cbn [Py.max_by_count Py.bind].
  destruct (Py.int_truediv _ _) as [q|e] eqn:E; [reflexivity|].
  exfalso. vm_compute in E. discriminate E.
Qed.

(** C1, as stated, fails: a successful result with the non-empty mapping
    [{"a": 1, "b": 2^1075}] has a positive total, and the analyzer returns
    no quality for it: the probability of "a" is 0.0 in binary64 and
    [math.log2] raises. *)
Lemma quality_lost_to_underflow :
  success underflow_result = true
  /\ counts underflow_result <> []
  /\ outcome_counts (counts underflow_result) = true
  /\ 0 < Py.sum (values (counts underflow_result))
  /\ analyze_audio_effectiveness underflow_result
     = Raise (ValueError "math domain error").
Proof.
  split; [reflexivity|]. split; [discriminate|]. split; [reflexivity|].
  split; [reflexivity | exact analyze_underflow].
Qed.

(** C1, amended.  On a successful result whose outcome-count mapping is not
    empty and sums to [N] with [0 < N < 2^1075], the analyzer returns an
    analysis whose [audio_quality] is [m / N], where [m] is the count of
    some label and no label has a greater count; and that quality lies
    between 0 and 1. *)
Theorem analyze_quality_is_max_over_total (result : JobResult) :
  success result = true ->
  counts result <> [] ->
  outcome_counts (counts result) = true ->
  0 < Py.sum (values (counts result)) < Py.flush_bound ->
  exists a label m,
    analyze_audio_effectiveness result = Ok (Analysis a)
    /\ In (label, m) (counts result)
    /\ (forall k v, In (k, v) (counts result) -> v <= m)
    /\ audio_quality a = (inject_Z m / inject_Z (Py.sum (values (counts result))))%Q
    /\ (0 <= audio_quality a <= 1)%Q.
Proof.
  intros Hs Hne Hwf Hpos.
  destruct (counts result) as [|item rest] eqn:Hc; [contradiction|].
  rewrite <- Hc in Hwf, Hpos.
  destruct (analyze_report result item rest Hs Hc Hwf Hpos) as [h [_ Ha]].
  rewrite <- Hc. rewrite Ha.
  pose proof (max_scan_in rest item) as Hin.
  destruct (max_scan_upper rest item) as [Hu1 Hu2].
  destruct (max_scan item rest) as [label m] eqn:Hm. simpl in *.
  assert (Hin' : In (label, m) (counts result)) by (rewrite Hc; exact Hin).
  eexists. exists label, m.
  split; [reflexivity|]. split; [exact Hin'|]. split.
  - intros k v Hkv. rewrite Hc in Hkv. destruct Hkv as [Heq | Hkv]; [rewrite Heq in Hu1; exact Hu1|].
    rewrite Forall_forall in Hu2. exact (Hu2 _ Hkv).
  - split; [reflexivity|]. simpl. apply ratio_range; [|exact (proj1 Hpos)].
    pose proof (outcome_counts_nonneg _ Hwf) as Hnn.
    pose proof (le_sum _ Hnn) as Hle.
    rewrite Forall_forall in Hnn, Hle.
    assert (In m (values (counts result))).
    { apply in_map_iff. exists (label, m). now split. }
    split; [now apply Hnn | now apply Hle].
Qed.

Lemma analyze_quality_is_max_over_total_witness :
  exists a label m,
    analyze_audio_effectiveness six_of_ten = Ok (Analysis a)
    /\ In (label, m) (counts six_of_ten)
    /\ (forall k v, In (k, v) (counts six_of_ten) -> v <= m)
    /\ audio_quality a
       = (inject_Z m / inject_Z (Py.sum (values (counts six_of_ten))))%Q
    /\ (0 <= audio_quality a <= 1)%Q.
Proof.
  apply (analyze_quality_is_max_over_total six_of_ten).
  - reflexivity.
  - discriminate.
  - reflexivity.
  - split; reflexivity.
Defined.

Lemma positive_labels_le (cs : list (string * Z)) :
  (positive_labels cs <= List.length cs)%nat.
Proof.
  unfold positive_labels, values.
  rewrite <- (length_map snd cs). apply filter_length_le.
Qed.

Lemma positive_labels_all (cs : list (string * Z)) :
  Forall (fun kv => 0 < snd kv) cs -> positive_labels cs = List.length cs.
Proof.
  unfold positive_labels, values.
  induction 1 as [|kv rest Hkv _ IH]; simpl.
  - reflexivity.
  - apply Z.ltb_lt in Hkv. rewrite Hkv. simpl. now rewrite IH.
Qed.

(** C2, as stated, fails: on [{"00": 3, "11": 0}] the analyzer reports a
    diversity of 2, while only one label has a count above 0. *)
Lemma diversity_counts_zero_labels :
  exists a,
    analyze_audio_effectiveness with_zero_label = Ok (Analysis a)
    /\ audio_diversity a = 2%nat
    /\ positive_labels (counts with_zero_label) = 1%nat
    /\ audio_diversity a <> positive_labels (counts with_zero_label).
Proof.
  destruct (analyze_report with_zero_label ("00", 3) [("11", 0)])
    as [h [_ Ha]]; try reflexivity; [split; reflexivity|].
  eexists. split; [exact Ha|]. simpl.
  repeat split. unfold positive_labels. simpl. discriminate.
Qed.

(** C2, amended.  On a successful result whose outcome-count mapping is not
    empty and has a positive total below [2^1075], the analyzer returns an
    analysis whose [audio_diversity] is the number of labels in the
    mapping, whatever their counts: it is never below the number of labels
    with a count above 0, and equals it when every label has a count above
    0. *)
Theorem diversity_is_number_of_labels (result : JobResult) :
  success result = true ->
  counts result <> [] ->
  outcome_counts (counts result) = true ->
  0 < Py.sum (values (counts result)) < Py.flush_bound ->
  exists a,
    analyze_audio_effectiveness result = Ok (Analysis a)
    /\ audio_diversity a = List.length (counts result)
    /\ (positive_labels (counts result) <= audio_diversity a)%nat
    /\ (Forall (fun kv => 0 < snd kv) (counts result) ->
        audio_diversity a = positive_labels (counts result)).
Proof.
  intros Hs Hne Hwf Hpos.
  destruct (counts result) as [|item rest] eqn:Hc; [contradiction|].
  rewrite <- Hc in *.
  destruct (analyze_report result item rest Hs Hc Hwf Hpos) as [h [_ Ha]].
  eexists. split; [exact Ha|]. simpl.
  split; [reflexivity|]. split.
  - apply positive_labels_le.
  - intro Hall. symmetry. now apply positive_labels_all.
Qed.

Lemma diversity_is_number_of_labels_witness :
  exists a,
    analyze_audio_effectiveness with_zero_label = Ok (Analysis a)
    /\ audio_diversity a = List.length (counts with_zero_label)
    /\ (positive_labels (counts with_zero_label) <= audio_diversity a)%nat
    /\ (Forall (fun kv => 0 < snd kv) (counts with_zero_label) ->
        audio_diversity a = positive_labels (counts with_zero_label)).
Proof.
  apply (diversity_is_number_of_labels with_zero_label).
  - reflexivity.
  - discriminate.
  - reflexivity.
  - split; reflexivity.
Defined.

(** C3, as stated, fails: on the mapping [{"a": 1, "b": 2^1075}] of the
    data model [_calculate_harmony] returns no value: the probability of
    "a" is 0.0 in binary64 and [math.log2] raises. *)
Lemma harmony_lost_to_underflow :
  outcome_counts underflow_counts = true
  /\ _calculate_harmony underflow_counts = Raise (ValueError "math domain error").
Proof. split; [reflexivity | exact harmony_underflow]. Qed.

(** C3, amended.  On every outcome-count mapping whose total is below
    [2^1075], [_calculate_harmony] returns a value between 0 and 1; and
    when all the mass is on one label (exactly one count is above 0) it
    returns 0, whatever the total. *)
Theorem harmony_in_unit_interval (cs : list (string * Z)) :
  outcome_counts cs = true ->
  (Py.sum (values cs) < Py.flush_bound ->
   exists h, _calculate_harmony cs = Ok h /\ (0 <= h <= 1)%R)
  /\ (positive_labels cs = 1%nat -> _calculate_harmony cs = Ok 0%R).
Proof.
  intro Hwf. split.
  - intro Hb. destruct (harmony_total cs Hwf Hb) as [h [Hh [Hr _]]]. eauto.
  - now apply harmony_single.
Qed.

Lemma harmony_in_unit_interval_witness :
  (exists h, _calculate_harmony scenario_counts = Ok h /\ (0 <= h <= 1)%R)
  /\ _calculate_harmony single_counts = Ok 0%R.
Proof.
  split.
  - apply (proj1 (harmony_in_unit_interval scenario_counts eq_refl)).
    reflexivity.
  - apply (proj2 (harmony_in_unit_interval single_counts eq_refl)).
    reflexivity.
Defined.

(** C8.  On a result whose [success] is false the analyzer returns the
    error marker, whatever the outcome-count mapping holds: also where
    [max] or the division would raise. *)
Theorem analyze_failed_result (result : JobResult) :
  success result = false ->
  analyze_audio_effectiveness result = Ok (AnalysisError "quantum_audio_failed").
Proof.
  intro Hs. unfold analyze_audio_effectiveness. now rewrite Hs.
Qed.

Lemma analyze_failed_result_witness :
  analyze_audio_effectiveness
    {| success := false; counts := []; execution_time := 0 |}
  = Ok (AnalysisError "quantum_audio_failed").
Proof.
  apply (analyze_failed_result
           {| success := false; counts := []; execution_time := 0 |}).
  reflexivity.
Defined.

(** C9.  The analyzer is partial on successful results: it raises the
    [ValueError] of [max] on an empty mapping, and the [ZeroDivisionError]
    of the quality's division on a non-empty mapping whose counts are all
    0. *)
Theorem analyze_unguarded (result : JobResult) :
  success result = true ->
  Forall (fun kv => snd kv = 0) (counts result) ->
  analyze_audio_effectiveness result =
    Raise (match counts result with
           | [] => ValueError "max() arg is an empty sequence"
           | _ :: _ => ZeroDivisionError "division by zero"
           end).
Proof.
  intros Hs Hz. unfold analyze_audio_effectiveness. rewrite Hs. simpl.
  destruct (counts result) as [|item rest] eqn:Hc; [reflexivity|].
  assert (Ht : Py.sum (values (item :: rest)) = 0).
  { apply sum_all_zero. unfold values. apply Forall_forall.
    intros v Hv. apply in_map_iff in Hv as [kv [<- Hkv]].
    rewrite Forall_forall in Hz. now apply Hz. }
  unfold Py.max_by_count, Py.bind. rewrite Ht. reflexivity.
Qed.

Lemma analyze_unguarded_witness :
  analyze_audio_effectiveness
    {| success := true; counts := []; execution_time := 1 |}
  = Raise (ValueError "max() arg is an empty sequence")
  /\ analyze_audio_effectiveness
       {| success := true; counts := [("00", 0); ("11", 0)]; execution_time := 1 |}
     = Raise (ZeroDivisionError "division by zero").
Proof.
  split.
  - apply (analyze_unguarded
             {| success := true; counts := []; execution_time := 1 |}).
    + reflexivity.
    + constructor.
  - apply (analyze_unguarded
             {| success := true; counts := [("00", 0); ("11", 0)];
                execution_time := 1 |}).
    + reflexivity.
    + repeat constructor.
Defined.

(** ** The 80/20 scenario *)

Open Scope R_scope.

(** An integer inequality between powers, read on logarithms. *)
Lemma pow_lt_ln (a b : Z) (n m : nat) :
  (0 < a)%Z -> (0 < b)%Z -> (a ^ Z.of_nat n < b ^ Z.of_nat m)%Z ->
  INR n * ln (IZR a) < INR m * ln (IZR b).
Proof.
  intros Ha Hb H.
  assert (0 < IZR a) by now apply IZR_lt.
  assert (0 < IZR b) by now apply IZR_lt.
  rewrite <- !ln_pow by assumption.
  apply ln_increasing.
  - now apply pow_lt.
  - rewrite !pow_IZR. now apply IZR_lt.
Qed.

(** [2^339 < 5^146] and [5^59 < 2^137] enclose the base-2 logarithm of 5
    between two convergents of its continued fraction. *)
Lemma log2_5_bounds : 339 / 146 < ln 5 / ln 2 < 137 / 59.
Proof.
  pose proof ln_2_pos as H2.
  assert (L : INR 339 * ln 2 < INR 146 * ln 5)
    by (apply pow_lt_ln; [lia | lia | vm_compute; reflexivity]).
  assert (U : INR 59 * ln 5 < INR 137 * ln 2)
    by (apply pow_lt_ln; [lia | lia | vm_compute; reflexivity]).
  rewrite !INR_IZR_INZ in L, U. simpl in L, U.
  split.
  - apply Rmult_lt_reg_r with (ln 2); [assumption|].
    unfold Rdiv at 2. rewrite Rmult_assoc, Rinv_l by lra. lra.
  - apply Rmult_lt_reg_r with (ln 2); [assumption|].
    unfold Rdiv at 1. rewrite Rmult_assoc, Rinv_l by lra. lra.
Qed.

Lemma ln_fifth : ln (20 / 100) = - ln 5.
Proof.
  replace (20 / 100) with (/ 5) by lra.
  apply ln_Rinv. lra.
Qed.

Lemma ln_four_fifths : ln (80 / 100) = 2 * ln 2 - ln 5.
Proof.
  replace (80 / 100) with ((2 * 2) * / 5) by lra.
  rewrite ln_mult, ln_mult, ln_Rinv by lra. ring.
Qed.

Lemma scenario_harmony :
  _calculate_harmony scenario_counts = Ok ((ln 5 / ln 2 - 1.6) / 4).
Proof.
  unfold _calculate_harmony, scenario_counts.
  change (Py.sum (values [("0101", 80%Z); ("1010", 20%Z)])) with 100%Z.
  change (values [("0101", 80%Z); ("1010", 20%Z)]) with [80%Z; 20%Z].
  change (100 =? 0)%Z with false. cbv iota.
  rewrite harmony_loop_turn;
    [| lia | lia | apply int_truediv_part; [lia | reflexivity]].
  rewrite harmony_loop_turn;
    [| lia | lia | apply int_truediv_part; [lia | reflexivity]].
  cbn [harmony_loop Py.bind].
  rewrite ln_fifth, ln_four_fifths.
  pose proof ln_2_pos as H2. pose proof log2_5_bounds as [_ U].
  assert (E : (0 - 80 / 100 * ((2 * ln 2 - ln 5) / ln 2)
               - 20 / 100 * (- ln 5 / ln 2)) / 4
              = (ln 5 / ln 2 - 1.6) / 4)
    by (replace 1.6 with (16 / 10) by lra; field; lra).
  rewrite E. unfold Py.min.
  destruct (Rlt_dec _ 1) as [_|N]; [reflexivity|]. exfalso. apply N. lra.
Qed.

Lemma scenario_analysis (t : Q) :
  analyze_audio_effectiveness (scenario t) =
    Ok (Analysis {|
      audio_quality := (inject_Z 80 / inject_Z 100)%Q;
      optimal_audio := "0101";
      audio_diversity := 2;
      quantum_harmony := (ln 5 / ln 2 - 1.6) / 4;
      audio_insights := _generate_audio_insights (scenario t) |}).
Proof.
  destruct (analyze_report (scenario t) ("0101", 80%Z) [("1010", 20%Z)])
    as [h [Hh Ha]]; try reflexivity; [split; reflexivity|].
  change (counts (scenario t)) with scenario_counts in Hh.
  rewrite scenario_harmony in Hh. injection Hh as <-.
  exact Ha.
Qed.

Lemma scenario_entropy :
  (ln 5 / ln 2 - 1.6) / 4 = - (0.8 * lb 0.8 + 0.2 * lb 0.2) / 4.
Proof.
  unfold lb. replace 0.8 with (80 / 100) by lra. replace 0.2 with (20 / 100) by lra.
  rewrite ln_fifth, ln_four_fifths. pose proof ln_2_pos.
  replace 1.6 with (16 / 10) by lra. field. lra.
Qed.

(** C4, as stated, fails in its last figure: on [{"0101": 80, "1010": 20}]
    the harmony is [-(0.8*log2 0.8 + 0.2*log2 0.2)/4] as claimed, but that
    number is more than 0.003 away from 0.1842. *)
Lemma scenario_harmony_is_not_0_1842 :
  exists a,
    analyze_audio_effectiveness (scenario 1) = Ok (Analysis a)
    /\ quantum_harmony a = - (0.8 * lb 0.8 + 0.2 * lb 0.2) / 4
    /\ 0.003 < Rabs (quantum_harmony a - 0.1842).
Proof.
  eexists. split; [apply scenario_analysis|]. simpl.
  split; [apply scenario_entropy|].
  pose proof log2_5_bounds as [L U].
  rewrite Rabs_left; lra.
Qed.

(** C4, amended.  On a successful result with counts
    [{"0101": 80, "1010": 20}] the analyzer returns [audio_quality] 0.8,
    [optimal_audio] "0101", [audio_diversity] 2 and [quantum_harmony]
    [-(0.8*log2 0.8 + 0.2*log2 0.2)/4], which is 0.1805 to four decimal
    places. *)
Theorem scenario_80_20 (t : Q) :
  exists a,
    analyze_audio_effectiveness (scenario t) = Ok (Analysis a)
    /\ (audio_quality a == 0.8)%Q
    /\ optimal_audio a = "0101"
    /\ audio_diversity a = 2%nat
    /\ quantum_harmony a = - (0.8 * lb 0.8 + 0.2 * lb 0.2) / 4
    /\ Rabs (quantum_harmony a - 0.1805) < 0.00005.
Proof.
  eexists. split; [apply scenario_analysis|]. simpl.
  split; [reflexivity|]. split; [reflexivity|]. split; [reflexivity|].
  split; [apply scenario_entropy|].
  pose proof log2_5_bounds as [L U].
  apply Rabs_def1; lra.
Qed.

Close Scope R_scope.

(** ** The metrics aggregator *)

Lemma no_success_filter (results : SuiteResult) :
  (forall name r a, In (name, Entry r a) results -> success r = false) ->
  filter ran_and_succeeded (values results) = [].
Proof.
  induction results as [|[name e] rest IH]; intro H; simpl.
  - reflexivity.
  - assert (He : ran_and_succeeded e = false).
    { destruct e as [r a|msg]; simpl; [|reflexivity].
      apply (H name r a). now left. }
    rewrite He. apply IH. intros n r a Hin. apply (H n r a). now right.
Qed.

(** The recommendations of a metrics report, as a function of its rate and
    average quality. *)
Lemma metrics_recommendations (div : Q -> Q -> result Q)
  (results : SuiteResult) (m : PerformanceMetrics) :
  metrics_with div results = Ok (Metrics m) ->
  recommendations m =
    ((if fge (success_rate m) 0.8 then [rec_production]
      else if fge (success_rate m) 0.6 then [rec_advanced] else [])
     ++ (if fge (average_audio_quality m) 0.7 then [rec_quality] else []))%list.
Proof.
  unfold metrics_with.
  destruct (filter ran_and_succeeded (values results)) as [|e es]; [discriminate|].
  destruct (div _ _) as [avg_quality|x]; [|discriminate]. simpl.
  destruct (div _ _) as [rate|x]; [|discriminate]. simpl.
  destruct (div _ _) as [avg_time|x]; [|discriminate]. simpl.
  intro H. injection H as <-. reflexivity.
Qed.

Lemma of_len_nonzero (n : nat) : Qeq_bool (of_len (S n)) 0 = false.
Proof.
  destruct (Qeq_bool (of_len (S n)) 0) eqn:E; [|reflexivity].
  apply Qeq_bool_eq in E. unfold Qeq, of_len in E. simpl in E. lia.
Qed.

(** With Python's division the aggregator never raises: each divisor is the
    length of a list that holds a successful entry.  Without a successful
    entry it returns the marker, with one it returns a report whose rate is
    the quotient of the two lengths. *)
Lemma metrics_report (results : SuiteResult) :
  match filter ran_and_succeeded (values results) with
  | [] => get_audio_performance_metrics results
          = Ok (MetricsStatus "no_successful_audio_operations")
  | _ :: _ =>
      exists m, get_audio_performance_metrics results = Ok (Metrics m)
                /\ success_rate m
                   = (of_len (successes results) / of_len (List.length results))%Q
  end.
Proof.
  unfold get_audio_performance_metrics, metrics_with, successes.
  destruct (filter ran_and_succeeded (values results)) as [|e es] eqn:F.
  - reflexivity.
  - assert (Hn : exists k, List.length results = S k).
    { pose proof (filter_length_le ran_and_succeeded (values results)) as Hle.
      rewrite F in Hle. unfold values in Hle. rewrite length_map in Hle.
      simpl in Hle. destruct (List.length results); [lia | eauto]. }
    destruct Hn as [k Hk]. rewrite Hk.
    unfold Py.truediv. simpl List.length. rewrite !of_len_nonzero.
    simpl. eexists. split; reflexivity.
Qed.

(** C5.  When no entry of the suite's result holds a [JobResult] whose
    [success] is true, the aggregator returns the marker
    [{"status": "no_successful_audio_operations"}]; and it does so whatever
    the division operator is, also one that always raises: no division is
    reached on this path. *)
Theorem metrics_no_successful_operations (results : SuiteResult) :
  (forall name r a, In (name, Entry r a) results -> success r = false) ->
  get_audio_performance_metrics results
    = Ok (MetricsStatus "no_successful_audio_operations")
  /\ forall div : Q -> Q -> result Q,
       metrics_with div results
         = Ok (MetricsStatus "no_successful_audio_operations").
Proof.
  intro H. pose proof (no_success_filter results H) as F.
  unfold get_audio_performance_metrics, metrics_with.
  rewrite F. split; [reflexivity | intro; reflexivity].
Qed.

Lemma metrics_no_successful_operations_witness :
  get_audio_performance_metrics nothing_succeeded
    = Ok (MetricsStatus "no_successful_audio_operations")
  /\ forall div : Q -> Q -> result Q,
       metrics_with div nothing_succeeded
         = Ok (MetricsStatus "no_successful_audio_operations").
Proof.
  apply (metrics_no_successful_operations nothing_succeeded).
  intros name r a Hin. simpl in Hin.
  destruct Hin as [Hin | [Hin | []]].
  - discriminate Hin.
  - injection Hin as _ <- _. reflexivity.
Defined.

Lemma rate_needs_a_success (results : SuiteResult) :
  (of_len (successes results) / of_len (List.length results) == 0.8)%Q ->
  successes results <> 0%nat.
Proof.
  intros H E. rewrite E in H. unfold of_len in H. simpl in H.
  unfold Qeq, Qdiv, Qmult in H. simpl in H. discriminate H.
Qed.

(** C7.  When the success rate, the number of successful entries over the
    number of entries, is exactly 0.8, the aggregator returns a report with
    that rate whose recommendations start with the production-ready one:
    the threshold includes its boundary. *)
Theorem rate_0_8_is_production_ready (results : SuiteResult) :
  (of_len (successes results) / of_len (List.length results) == 0.8)%Q ->
  exists m,
    get_audio_performance_metrics results = Ok (Metrics m)
    /\ (success_rate m == 0.8)%Q
    /\ hd_error (recommendations m) = Some rec_production
    /\ In rec_production (recommendations m).
Proof.
  intro Hr. pose proof (rate_needs_a_success results Hr) as Hn.
  pose proof (metrics_report results) as Hm. unfold successes in Hn.
  destruct (filter ran_and_succeeded (values results)) as [|e es];
    [now elim Hn|].
  destruct Hm as [m [Hm Hrate]]. exists m. split; [exact Hm|].
  rewrite <- Hrate in Hr. split; [exact Hr|].
  apply metrics_recommendations in Hm. rewrite Hm.
  assert (E : fge (success_rate m) 0.8 = true).
  { unfold fge. apply Qle_bool_iff. rewrite Hr. apply Qle_refl. }
  rewrite E. simpl. split; [reflexivity | now left].
Qed.

Lemma rate_0_8_is_production_ready_witness :
  exists m,
    get_audio_performance_metrics four_of_five = Ok (Metrics m)
    /\ (success_rate m == 0.8)%Q
    /\ hd_error (recommendations m) = Some rec_production
    /\ In rec_production (recommendations m).
Proof.
  apply (rate_0_8_is_production_ready four_of_five).
  reflexivity.
Defined.

(** C10.  The aggregator always returns, and in every metrics report it
    returns the two recommendations gated on the success rate exclude each
    other: the list holds at most one of them and at most one quality
    recommendation, at most two entries in all. *)
Theorem recommendations_at_most_two (results : SuiteResult) :
  exists d,
    get_audio_performance_metrics results = Ok d
    /\ forall m, d = Metrics m ->
         ~ (In rec_production (recommendations m)
            /\ In rec_advanced (recommendations m))
         /\ (List.length (recommendations m) <= 2)%nat
         /\ (List.length (filter (fun s => String.eqb s rec_production
                                          || String.eqb s rec_advanced)
                            (recommendations m)) <= 1)%nat
         /\ (List.length (filter (String.eqb rec_quality) (recommendations m))
             <= 1)%nat.
Proof.
  assert (Hd : exists d, get_audio_performance_metrics results = Ok d).
  { pose proof (metrics_report results) as H.
    destruct (filter ran_and_succeeded (values results)).
    - eexists; exact H.
    - destruct H as [m [H _]]. eexists; exact H. }
  destruct Hd as [d Hd]. exists d. split; [exact Hd|].
  intros m ->. apply metrics_recommendations in Hd. rewrite Hd.
  destruct (fge (success_rate m) 0.8);
    [|destruct (fge (success_rate m) 0.6)];
    destruct (fge (average_audio_quality m) 0.7);
    (split; [intros [H1 H2]; simpl in H1, H2; intuition discriminate
            | repeat split; simpl; lia]).
Qed.

(** The bound of two recommendations is reached: four successes out of
    five with an average quality of 0.7 give both. *)
Example four_of_five_has_two_recommendations :
  exists m,
    get_audio_performance_metrics four_of_five = Ok (Metrics m)
    /\ recommendations m = [rec_production; rec_quality].
Proof. eexists. split; reflexivity. Qed.

(** ** The suite runner *)

Lemma analysable_ok (r : JobResult) :
  analysable r = true -> exists a, analyze_audio_effectiveness r = Ok a.
Proof.
  unfold analysable. destruct (success r) eqn:Hs; simpl negb; simpl orb.
  - intro H. apply andb_prop in H as [H Hb]. apply andb_prop in H as [H Hpos].
    apply andb_prop in H as [Hne Hwf].
    apply Z.ltb_lt in Hpos. apply Z.ltb_lt in Hb.
    destruct (counts r) as [|item rest] eqn:Hc; [discriminate|].
    rewrite <- Hc in Hwf, Hpos, Hb.
    destruct (analyze_report r item rest Hs Hc Hwf (conj Hpos Hb)) as [h [_ Ha]].
    eexists. exact Ha.
  - intros _. eexists. unfold analyze_audio_effectiveness. rewrite Hs. reflexivity.
Qed.

(** An entry is an error marker when the operation raised or the analyzer
    did, and a pair otherwise. *)
Lemma entry_of_error (o : result JobResult) :
  is_error (entry_of o) = raised o || analysis_raised o.
Proof.
  unfold is_error, entry_of, analysis_raised, raised.
  destruct o as [r|e]; [|reflexivity].
  destruct (analyze_audio_effectiveness r); reflexivity.
Qed.

Lemma entries_count (os : list (result JobResult)) :
  List.length (filter is_error (map entry_of os))
  = (List.length (filter raised os)
     + List.length (filter analysis_raised os))%nat
  /\ (List.length (filter is_pair (map entry_of os))
      + List.length (filter is_error (map entry_of os)))%nat
     = List.length os.
Proof.
  induction os as [|o os [IH1 IH2]]; [split; reflexivity|].
  cbn [map filter]. rewrite entry_of_error.
  pose proof (entry_of_error o) as He. unfold is_error in He.
  destruct (is_pair (entry_of o)); cbn [negb] in He; rewrite <- He;
    destruct o as [r|e]; cbn [raised analysis_raised orb] in *.
  - rewrite <- He. cbn [List.length]. lia.
  - discriminate He.
  - rewrite <- He. cbn [List.length]. lia.
  - cbn [List.length]. lia.
Qed.

Section SuiteRun.

Variable Manager : Type.
Variable execute_quantum_job : QuantumJob -> Manager -> result JobResult * Manager.

Lemma outcomes_length (jobs : list QuantumJob) (m : Manager) :
  List.length (outcomes execute_quantum_job jobs m) = List.length jobs.
Proof.
  revert m. induction jobs as [|job rest IH]; intro m; simpl; [reflexivity|].
  now rewrite IH.
Qed.

(** One iteration submits its job, stores the entry of what came back, and
    goes on with the manager the call left. *)
Lemma suite_step_entry (results : SuiteResult) (w : World Manager) (name : string)
  (job : QuantumJob) :
  exists w',
    suite_step Manager (results, w) (name, execute Manager execute_quantum_job job)
    = (setitem results name (entry_of (fst (execute_quantum_job job (manager w)))), w')
    /\ manager w' = snd (execute_quantum_job job (manager w))
    /\ submitted w' = (submitted w ++ [job])%list.
Proof.
  unfold suite_step, execute, on_exception, entry_of. simpl.
  destruct (execute_quantum_job job (manager w)) as [[r|e] m]; simpl.
  - destruct (analyze_audio_effectiveness r) as [a|e];
      eexists; split; try reflexivity; split; reflexivity.
  - eexists; split; try reflexivity; split; reflexivity.
Qed.

(** The loop over any list of named jobs: every job is submitted, in order,
    and every name is assigned the entry of its outcome. *)
Lemma suite_loop (ops : list (string * QuantumJob)) :
  forall (results : SuiteResult) (w : World Manager),
  exists w',
    fold_left (suite_step Manager)
      (map (fun nj => (fst nj, execute Manager execute_quantum_job (snd nj))) ops)
      (results, w)
    = (fold_left (fun d ne => setitem d (fst ne) (snd ne))
         (combine (map fst ops)
                  (map entry_of (outcomes execute_quantum_job (map snd ops) (manager w))))
         results,
       w')
    /\ submitted w' = (submitted w ++ map snd ops)%list.
Proof.
  induction ops as [|[name job] rest IH]; intros results w;
    cbn [map fold_left fst snd combine outcomes].
  - exists w. split; [reflexivity | now rewrite app_nil_r].
  - destruct (suite_step_entry results w name job) as [w1 [E1 [M1 S1]]].
    rewrite E1.
    destruct (IH (setitem results name
                    (entry_of (fst (execute_quantum_job job (manager w))))) w1)
      as [w' [E' S']].
    exists w'. rewrite M1 in E'. split; [exact E'|].
    rewrite S', S1. now rewrite <- app_assoc.
Qed.

(** The suite: all five names are assigned, in the declared order, and all
    five jobs are submitted, whatever the operations do. *)
Lemma run_all_entries (w : World Manager) :
  exists w',
    run_all_audio_operations Manager execute_quantum_job w
    = (combine suite_names (map entry_of (outcomes execute_quantum_job suite_jobs (manager w))), w')
    /\ submitted w' = (submitted w ++ suite_jobs)%list.
Proof.
  unfold run_all_audio_operations.
  destruct (suite_loop (combine suite_names suite_jobs) []
              (logger Manager INFO
                 "Starting pitchfork-echo-studio Quantum Audio Operations" w))
    as [w' [E S]].
  exists w'. split.
  - etransitivity; [exact E|]. reflexivity.
  - exact S.
Qed.

Lemma suite_keys_values (es : list SuiteEntry) :
  List.length es = 5%nat ->
  keys (combine suite_names es) = suite_names
  /\ values (combine suite_names es) = es.
Proof.
  intro H.
  destruct es as [|e1 [|e2 [|e3 [|e4 [|e5 [|e6 es]]]]]]; try discriminate.
  split; reflexivity.
Qed.

(** C6, amended.  When exactly 2 of the 5 operations raise, the suite
    returns a mapping with the 5 operation names in order, and all 5 jobs
    were submitted, in order.  The entry of an operation that raised [e] is
    the error marker with [str(e)]; the entry of one that returned is the
    pair of its result and analysis when the analyzer returns, and the error
    marker with [str(e)] when the analyzer raises [e].  So there are 2 error
    markers plus one for each returned result the analyzer raises on, and 3
    pairs less that number: 3 pairs and 2 markers exactly when the analyzer
    raises on none of the returned results. *)
Theorem suite_two_of_five_raise (w : World Manager) :
  List.length (filter raised (outcomes execute_quantum_job suite_jobs (manager w))) = 2%nat ->
  exists results w',
    run_all_audio_operations Manager execute_quantum_job w = (results, w')
    /\ keys results = suite_names
    /\ values results = map entry_of (outcomes execute_quantum_job suite_jobs (manager w))
    /\ List.length (filter is_error (values results))
       = (2 + List.length (filter analysis_raised
                             (outcomes execute_quantum_job suite_jobs (manager w))))%nat
    /\ List.length (filter is_pair (values results))
       = (3 - List.length (filter analysis_raised
                             (outcomes execute_quantum_job suite_jobs (manager w))))%nat
    /\ (List.length (filter is_pair (values results)) = 3%nat
        /\ List.length (filter is_error (values results)) = 2%nat
        <-> filter analysis_raised
              (outcomes execute_quantum_job suite_jobs (manager w)) = [])
    /\ submitted w' = (submitted w ++ suite_jobs)%list.
Proof.
  intro H2.
  destruct (run_all_entries w) as [w' [E S]].
  pose proof (outcomes_length suite_jobs (manager w)) as Hlen.
  destruct (suite_keys_values (map entry_of (outcomes execute_quantum_job suite_jobs (manager w))))
    as [Hk Hv]; [now rewrite length_map, Hlen|].
  eexists. exists w'. split; [exact E|].
  rewrite Hk, Hv. split; [reflexivity|]. split; [reflexivity|].
  destruct (entries_count (outcomes execute_quantum_job suite_jobs (manager w)))
    as [He Hp].
  rewrite Hlen, He, H2 in Hp. rewrite He, H2.
  change (List.length suite_jobs) with 5%nat in Hp.
  split; [reflexivity|]. split; [lia|]. split; [|exact S].
  rewrite <- length_zero_iff_nil. lia.
Qed.

End SuiteRun.

Lemma entry_of_analysable (r : JobResult) :
  analysable r = true -> exists a, entry_of (Ok r) = Entry r a.
Proof.
  intro H. destruct (analysable_ok r H) as [a Ha].
  exists a. unfold entry_of. now rewrite Ha.
Qed.

Lemma suite_two_of_five_raise_witness :
  exists results w',
    run_all_audio_operations nat (scripted two_raise) fresh = (results, w')
    /\ keys results = suite_names
    /\ values results
       = map entry_of (outcomes (scripted two_raise) suite_jobs (manager fresh))
    /\ List.length (filter is_error (values results))
       = (2 + List.length (filter analysis_raised
                             (outcomes (scripted two_raise) suite_jobs
                                (manager fresh))))%nat
    /\ List.length (filter is_pair (values results))
       = (3 - List.length (filter analysis_raised
                             (outcomes (scripted two_raise) suite_jobs
                                (manager fresh))))%nat
    /\ (List.length (filter is_pair (values results)) = 3%nat
        /\ List.length (filter is_error (values results)) = 2%nat
        <-> filter analysis_raised
              (outcomes (scripted two_raise) suite_jobs (manager fresh)) = [])
    /\ submitted w' = (submitted fresh ++ suite_jobs)%list.
Proof.
  apply (suite_two_of_five_raise nat (scripted two_raise) fresh).
  reflexivity.
Defined.

(** C6, as stated, fails: with two operations raising and three returning,
    one of them the empty successful result, the analyzer raises inside the
    loop body and that operation gets an error marker too: 2 pairs and 3
    error markers. *)
Lemma suite_counts_analysis_failures :
  List.length (filter raised
                 (outcomes (scripted two_raise_one_empty) suite_jobs 0%nat)) = 2%nat
  /\ List.length (filter (fun o => negb (raised o))
                    (outcomes (scripted two_raise_one_empty) suite_jobs 0%nat)) = 3%nat
  /\ exists results w',
       run_all_audio_operations nat (scripted two_raise_one_empty) fresh
       = (results, w')
       /\ keys results = suite_names
       /\ In ("Echo Optimization", EntryError "max() arg is an empty sequence") results
       /\ List.length (filter is_pair (values results)) = 2%nat
       /\ List.length (filter is_error (values results)) = 3%nat.
Proof.
  split; [reflexivity|]. split; [reflexivity|].
  destruct (run_all_entries nat (scripted two_raise_one_empty) fresh) as [w' [E _]].
  destruct (entry_of_analysable (scenario 1) eq_refl) as [a Ha].
  change (outcomes (scripted two_raise_one_empty) suite_jobs (manager fresh))
    with [Raise (Exception "device unavailable");
          Raise (Exception "quota exceeded");
          Ok empty_result; Ok (scenario 1); Ok (scenario 1)] in E.
  cbn [map] in E. rewrite Ha in E.
  change (entry_of (Ok empty_result))
    with (EntryError "max() arg is an empty sequence") in E.
  eexists. exists w'. split; [exact E|].
  split; [reflexivity|]. split; [simpl; tauto|]. split; reflexivity.
Qed.

(** The result whose total reaches the flush bound is one the analyzer
    raises on: in the suite its operation gets an error marker. *)
Example underflow_is_an_analysis_failure :
  analysis_raised (Ok underflow_result) = true
  /\ entry_of (Ok underflow_result) = EntryError "math domain error".
Proof.
  unfold analysis_raised, entry_of. rewrite analyze_underflow.
  split; reflexivity.
Qed.

(** * Further properties *)

(** ** The analyzer: dominant label, quality and insights *)

(** The scan stops on the first item that carries the maximum: everything
    before it is strictly smaller, nothing after it is greater. *)
Lemma max_scan_first (items : list (string * Z)) :
  forall best : string * Z,
  exists pre post,
    best :: items = (pre ++ max_scan best items :: post)%list
    /\ Forall (fun kv => snd kv < snd (max_scan best items)) pre
    /\ Forall (fun kv => snd kv <= snd (max_scan best items)) post.
Proof.
  induction items as [|item rest IH]; intro best; simpl.
  - exists [], []. repeat split; constructor.
  - destruct (snd best <? snd item) eqn:E.
    + apply Z.ltb_lt in E.
      destruct (IH item) as [pre [post [Hsplit [Hpre Hpost]]]].
      destruct (max_scan_upper rest item) as [Hu _].
      exists (best :: pre), post. rewrite Hsplit. repeat split; try assumption.
      constructor; [lia | assumption].
    + apply Z.ltb_ge in E.
      destruct (IH best) as [pre [post [Hsplit [Hpre Hpost]]]].
      destruct (max_scan_upper rest best) as [_ Hu].
      remember (max_scan best rest) as m eqn:Hm.
      destruct pre as [|b pre']; simpl in Hsplit; injection Hsplit as Hb Hrest.
      * exists [], (item :: rest). subst m. rewrite <- Hb at 1.
        repeat split; constructor; [rewrite <- Hb; lia | exact Hu].
      * subst b. exists (best :: item :: pre'), post.
        rewrite Hrest at 1. repeat split; [|assumption].
        inversion Hpre as [|? ? Hbest Hpre']; subst.
        constructor; [assumption|]. constructor; [lia | assumption].
Qed.

(** What a returned analysis tells about the call that produced it. *)
Lemma analysis_inversion (result : JobResult) (a : AudioAnalysis) :
  analyze_audio_effectiveness result = Ok (Analysis a) ->
  success result = true
  /\ audio_diversity a = List.length (counts result)
  /\ _calculate_harmony (counts result) = Ok (quantum_harmony a)
  /\ audio_insights a = _generate_audio_insights result
  /\ exists item rest,
       counts result = item :: rest
       /\ optimal_audio a = fst (max_scan item rest)
       /\ Py.int_truediv (snd (max_scan item rest))
            (Py.sum (values (counts result)))
          = Ok (audio_quality a).
Proof.
  unfold analyze_audio_effectiveness.
  destruct (success result); simpl; [|discriminate].
  destruct (counts result) as [|item rest]; [discriminate|].
  cbn [Py.max_by_count Py.bind].
  destruct (Py.int_truediv _ _) as [q|e] eqn:Hq; [|discriminate].
  cbn [Py.bind].
  destruct (_calculate_harmony (item :: rest)) as [h|e]; [|discriminate].
  cbn [Py.bind]. intro H. injection H as <-. cbn.
  repeat split. exists item, rest. repeat split. exact Hq.
Qed.

(** X1.  Ties go to the label met first: the [optimal_audio] of a returned
    analysis splits the mapping, in iteration order, into labels of strictly
    smaller count before it and labels of no greater count after it. *)
Theorem optimal_audio_is_first_maximum (result : JobResult) (a : AudioAnalysis) :
  analyze_audio_effectiveness result = Ok (Analysis a) ->
  exists pre m post,
    counts result = (pre ++ (optimal_audio a, m) :: post)%list
    /\ Forall (fun kv => snd kv < m) pre
    /\ Forall (fun kv => snd kv <= m) post.
Proof.
  intro Ha.
  destruct (analysis_inversion result a Ha)
    as [_ [_ [_ [_ [item [rest [Hc [Ho _]]]]]]]].
  destruct (max_scan_first rest item) as [pre [post [Hsplit [Hpre Hpost]]]].
  exists pre, (snd (max_scan item rest)), post.
  rewrite Ho, <- surjective_pairing, Hc. repeat split; assumption.
Qed.

Lemma optimal_audio_is_first_maximum_witness :
  exists a,
    analyze_audio_effectiveness tied_result = Ok (Analysis a)
    /\ optimal_audio a = "01"
    /\ exists pre m post,
         counts tied_result = (pre ++ (optimal_audio a, m) :: post)%list
         /\ Forall (fun kv => snd kv < m) pre
         /\ Forall (fun kv => snd kv <= m) post.
Proof.
  destruct (analyze_report tied_result ("00", 2) [("01", 4); ("10", 4); ("11", 0)]
              eq_refl eq_refl eq_refl (conj eq_refl eq_refl)) as [h [_ Ha]].
  eexists. split; [exact Ha|]. split; [reflexivity|].
  apply (optimal_audio_is_first_maximum tied_result _ Ha).
Defined.

Lemma ratio_whole (n : Z) : 0 < n -> (inject_Z n / inject_Z n == 1)%Q.
Proof.
  intro Hn. destruct n as [|p|p]; try lia.
  unfold Qdiv, Qinv, Qmult, Qeq, inject_Z. simpl. lia.
Qed.

(** X3.  All the mass on one label: whatever the total, the analyzer returns
    an analysis whose quality is 1, whose harmony is 0 and whose dominant
    label is the one that carries the whole total. *)
Theorem single_outcome_analysis (result : JobResult) :
  success result = true ->
  outcome_counts (counts result) = true ->
  positive_labels (counts result) = 1%nat ->
  exists a,
    analyze_audio_effectiveness result = Ok (Analysis a)
    /\ (audio_quality a == 1)%Q
    /\ quantum_harmony a = 0%R
    /\ In (optimal_audio a, Py.sum (values (counts result))) (counts result).
Proof.
  intros Hs Hwf Hone.
  destruct (counts result) as [|item rest] eqn:Hc; [discriminate Hone|].
  rewrite <- Hc in Hwf, Hone.
  destruct (analyze_single result item rest Hs Hc Hwf Hone) as [Hm [Hmax Ha]].
  rewrite <- Hc. rewrite Ha. eexists. split; [reflexivity|]. cbn.
  split; [apply ratio_whole; lia|]. split; [reflexivity|].
  rewrite <- Hmax, <- surjective_pairing, Hc. apply max_scan_in.
Qed.

Lemma single_outcome_analysis_witness :
  exists a,
    analyze_audio_effectiveness with_zero_label = Ok (Analysis a)
    /\ (audio_quality a == 1)%Q
    /\ quantum_harmony a = 0%R
    /\ In (optimal_audio a, Py.sum (values (counts with_zero_label)))
          (counts with_zero_label).
Proof.
  apply (single_outcome_analysis with_zero_label).
  - reflexivity.
  - reflexivity.
  - reflexivity.
Defined.

Lemma flt_lt (a b : Q) : Py.flt a b = true <-> (a < b)%Q.
Proof.
  unfold Py.flt. rewrite negb_true_iff. split.
  - intro H. apply Qnot_le_lt. intro Hle. apply Qle_bool_iff in Hle. congruence.
  - intro H. destruct (Qle_bool b a) eqn:E; [|reflexivity].
    apply Qle_bool_iff in E. exfalso. exact (Qlt_not_le _ _ H E).
Qed.

Ltac in_cases H :=
  simpl in H;
  repeat (destruct H as [H|H]; [try discriminate H|]);
  try contradiction.

(** X4.  The insights of a returned analysis never hold the fallback line:
    they are the two success lines, then the fast line exactly when the
    job took less than 30 seconds, then the diversity line exactly when
    the diversity exceeds 8. *)
Theorem insights_of_analysis (result : JobResult) (a : AudioAnalysis) :
  analyze_audio_effectiveness result = Ok (Analysis a) ->
  firstn 2 (audio_insights a)
    = ["Quantum audio synthesis achieved";
       "Consciousness-enhanced audio quantum-processed"]
  /\ (In insight_fast (audio_insights a) <-> (execution_time result < 30)%Q)
  /\ (In insight_diverse (audio_insights a) <-> (8 < audio_diversity a)%nat)
  /\ ~ In insight_fallback (audio_insights a)
  /\ (2 <= List.length (audio_insights a) <= 4)%nat.
Proof.
  intro Ha. destruct (analysis_inversion result a Ha) as [Hs [Hd [_ [Hi _]]]].
  rewrite Hi, Hd. unfold _generate_audio_insights. rewrite Hs.
  pose proof (flt_lt (execution_time result) 30) as Hf.
  pose proof (Nat.ltb_lt 8 (List.length (counts result))) as Hn.
  destruct (Py.flt (execution_time result) 30);
    destruct (8 <? List.length (counts result))%nat;
    simpl app; (split; [reflexivity|]).
  all: split;
    [split; intro H;
     [first [now apply Hf | in_cases H]
     |first [simpl; tauto | apply Hf in H; discriminate H]]|].
  all: split;
    [split; intro H;
     [first [now apply Hn | in_cases H]
     |first [simpl; tauto | apply Hn in H; discriminate H]]|].
  all: split; [intro H; in_cases H | simpl; lia].
Qed.

Lemma insights_of_analysis_witness :
  exists a,
    analyze_audio_effectiveness tied_result = Ok (Analysis a)
    /\ firstn 2 (audio_insights a)
       = ["Quantum audio synthesis achieved";
          "Consciousness-enhanced audio quantum-processed"]
    /\ (In insight_fast (audio_insights a)
        <-> (execution_time tied_result < 30)%Q)
    /\ (In insight_diverse (audio_insights a) <-> (8 < audio_diversity a)%nat)
    /\ ~ In insight_fallback (audio_insights a)
    /\ (2 <= List.length (audio_insights a) <= 4)%nat.
Proof.
  destruct (analyze_report tied_result ("00", 2) [("01", 4); ("10", 4); ("11", 0)]
              eq_refl eq_refl eq_refl (conj eq_refl eq_refl)) as [h [_ Ha]].
  eexists. split; [exact Ha|].
  apply (insights_of_analysis tied_result _ Ha).
Defined.

(** ** The harmony: domain, entropy and invariance *)

Open Scope R_scope.

Lemma log2_raises (x : R) :
  x <= 0 -> Py.log2 x = Raise (ValueError "math domain error").
Proof. intro H. unfold Py.log2. destruct (Rlt_dec 0 x); [lra | reflexivity]. Qed.

Lemma Q2R_zero : Q2R 0 = 0.
Proof. unfold Q2R. simpl. lra. Qed.

(** A positive count inside the domain: the total is positive and the
    probability is the exact quotient. *)
Lemma in_domain_probability (total v : Z) :
  (total <> 0)%Z -> (0 < v)%Z -> out_of_domain total v = false ->
  Py.int_truediv v total = Ok (inject_Z v / inject_Z total)%Q
  /\ (0 < total)%Z.
Proof.
  intros Ht Hv Hd. unfold out_of_domain in Hd.
  replace (0 <? v)%Z with true in Hd by (symmetry; now apply Z.ltb_lt).
  cbn [andb] in Hd. apply orb_false_iff in Hd as [Hd Ho].
  apply orb_false_iff in Hd as [Hn Hu]. apply Z.ltb_ge in Hn.
  unfold Py.int_truediv. rewrite Ho, Hu.
  replace (total =? 0)%Z with false by (symmetry; now apply Z.eqb_neq).
  split; [reflexivity | lia].
Qed.

(** A count outside the domain stops the loop. *)
Lemma harmony_loop_raises (total v : Z) (rest : list Z) (h : R) :
  (total <> 0)%Z -> out_of_domain total v = true ->
  harmony_loop total (v :: rest) h = Raise (harmony_error total v).
Proof.
  intros Ht Hd. unfold out_of_domain in Hd. apply andb_prop in Hd as [Hv Hd].
  cbn [harmony_loop]. rewrite Hv. apply Z.ltb_lt in Hv.
  unfold Py.int_truediv, harmony_error.
  replace (total =? 0)%Z with false by (symmetry; now apply Z.eqb_neq).
  destruct (Py.overflows v total) eqn:Ho; [reflexivity|].
  destruct (Py.underflows v total) eqn:Hu; cbn [Py.bind];
    (rewrite log2_raises; [reflexivity|]).
  - rewrite Q2R_zero. lra.
  - rewrite !orb_false_r in Hd. apply Z.ltb_lt in Hd.
    rewrite Q2R_ratio by assumption.
    assert (0 < IZR v) by now apply IZR_lt.
    assert (IZR total < 0) by now apply IZR_lt.
    assert (/ IZR total < 0) by now apply Rinv_lt_0_compat.
    unfold Rdiv. nra.
Qed.

(** The loop on any list of integers: it raises at the first count outside
    the domain, and without one it adds the entropy of the distribution to
    its accumulator. *)
Lemma harmony_loop_domain (total : Z) (vs : list Z) :
  (total <> 0)%Z ->
  forall h,
    harmony_loop total vs h
    = match find (out_of_domain total) vs with
      | Some v => Raise (harmony_error total v)
      | None => Ok (h + entropy total vs)
      end.
Proof.
  intro Ht. induction vs as [|v rest IH]; intro h.
  - cbn. f_equal. ring.
  - cbn [find]. destruct (out_of_domain total v) eqn:Hd.
    + now apply harmony_loop_raises.
    + cbn [entropy]. destruct (Z.lt_ge_cases 0 v) as [Hv|Hv].
      * destruct (in_domain_probability total v Ht Hv Hd) as [Hdiv Hpos].
        rewrite harmony_loop_turn by assumption. rewrite IH.
        replace (0 <? v)%Z with true by (symmetry; now apply Z.ltb_lt).
        destruct (find (out_of_domain total) rest); [reflexivity|].
        f_equal. unfold lb. ring.
      * cbn [harmony_loop].
        replace (0 <? v)%Z with false by (symmetry; now apply Z.ltb_ge).
        rewrite IH.
        destruct (find (out_of_domain total) rest); [reflexivity|].
        f_equal. ring.
Qed.

(** What [_calculate_harmony] does on any mapping of integers. *)
Lemma harmony_value (cs : list (string * Z)) :
  _calculate_harmony cs
  = if (Py.sum (values cs) =? 0)%Z then Ok 0
    else match find (out_of_domain (Py.sum (values cs))) (values cs) with
         | Some v => Raise (harmony_error (Py.sum (values cs)) v)
         | None => Ok (Py.min 1 (entropy (Py.sum (values cs)) (values cs) / 4))
         end.
Proof.
  unfold _calculate_harmony.
  destruct (Py.sum (values cs) =? 0)%Z eqn:E; [reflexivity|].
  apply Z.eqb_neq in E. rewrite (harmony_loop_domain _ _ E).
  destruct (find _ (values cs)); [reflexivity|].
  cbn [Py.bind]. now rewrite Rplus_0_l.
Qed.

Close Scope R_scope.



Lemma model_range (cs : list (string * Z)) :
  outcome_counts cs = true ->
  Forall (fun v => 0 <= v <= Py.sum (values cs)) (values cs).
Proof.
  intro Hwf. pose proof (outcome_counts_nonneg cs Hwf) as Hnn.
  pose proof (le_sum _ Hnn) as Hle. rewrite Forall_forall in *.
  intros v Hv. split; [now apply Hnn | now apply Hle].
Qed.


(** The quotient too large for a float is met outside the data model: a
    total of 1 made of [2^1024] and [1 - 2^1024]. *)
Example harmony_overflow :
  _calculate_harmony [("a", 2 ^ 1024); ("b", 1 - 2 ^ 1024)]
  = Raise (OverflowError "integer division result too large for a float").
Proof.
  rewrite harmony_value.
  replace (Py.sum (values [("a", 2 ^ 1024); ("b", 1 - 2 ^ 1024)]) =? 0)
    with false by (symmetry; vm_compute; reflexivity).
  replace (find (out_of_domain (Py.sum (values [("a", 2 ^ 1024); ("b", 1 - 2 ^ 1024)])))
             (values [("a", 2 ^ 1024); ("b", 1 - 2 ^ 1024)]))
    with (Some (2 ^ 1024)) by (symmetry; vm_compute; reflexivity).
  unfold harmony_error.
  replace (Py.overflows (2 ^ 1024)
             (Py.sum (values [("a", 2 ^ 1024); ("b", 1 - 2 ^ 1024)])))
    with true by (symmetry; vm_compute; reflexivity).
  reflexivity.
Qed.

(** *** An even distribution *)

Open Scope R_scope.








Close Scope R_scope.

(** *** A harmony of 0 *)

Open Scope R_scope.

Lemma entropy_term_positive (p : R) : 0 < p < 1 -> 0 < - (p * lb p).
Proof.
  intros [H0 H1]. pose proof ln_2_pos as H2. unfold lb.
  assert (Hln : ln p < 0) by (rewrite <- ln_1; now apply ln_increasing).
  assert (Hq : ln p / ln 2 < 0).
  { unfold Rdiv. assert (0 < / ln 2) by now apply Rinv_0_lt_compat. nra. }
  nra.
Qed.

Lemma entropy_nonneg (total : Z) (vs : list Z) :
  Forall (fun v => (0 <= v <= total)%Z) vs -> 0 <= entropy total vs.
Proof.
  induction 1 as [|v rest Hv _ IH]; simpl; [lra|].
  destruct (0 <? v)%Z eqn:E; [|lra].
  apply Z.ltb_lt in E.
  pose proof (probability_range v total (conj E (proj2 Hv))) as Hp.
  pose proof (log2_nonpos _ Hp). fold (lb (IZR v / IZR total)) in *.
  nra.
Qed.

Lemma entropy_positive (total : Z) (vs : list Z) :
  Forall (fun v => (0 <= v <= total)%Z) vs ->
  Exists (fun v => (0 < v < total)%Z) vs ->
  0 < entropy total vs.
Proof.
  induction 1 as [|v rest Hv Hrest IH]; intro Hex;
    [inversion Hex|].
  pose proof (entropy_nonneg total rest Hrest) as Hnn. simpl.
  inversion Hex as [? ? Hhead | ? ? Htail]; subst.
  - replace (0 <? v)%Z with true by (symmetry; apply Z.ltb_lt; lia).
    assert (Hp : 0 < IZR v / IZR total < 1).
    { assert (0 < IZR v) by (apply IZR_lt; lia).
      assert (IZR v < IZR total) by (apply IZR_lt; lia).
      split; [apply Rdiv_lt_0_compat; lra|].
      apply Rmult_lt_reg_r with (IZR total); [lra|].
      unfold Rdiv. rewrite Rmult_assoc, Rinv_l; lra. }
    pose proof (entropy_term_positive _ Hp). lra.
  - specialize (IH Htail).
    destruct (0 <? v)%Z eqn:E; [|lra].
    apply Z.ltb_lt in E.
    pose proof (probability_range v total (conj E (proj2 Hv))) as Hp.
    pose proof (log2_nonpos _ Hp). fold (lb (IZR v / IZR total)) in *.
    nra.
Qed.

Close Scope R_scope.

Lemma positive_total_has_positive (vs : list Z) :
  Forall (fun v => 0 <= v) vs -> 0 < Py.sum vs ->
  (1 <= List.length (filter (Z.ltb 0) vs))%nat.
Proof.
  intros Hnn Hpos.
  destruct (filter (Z.ltb 0) vs) as [|x xs] eqn:F; [|simpl; lia].
  pose proof (sum_all_zero vs (no_positive_all_zero vs Hnn F)). lia.
Qed.

Lemma positive_entry_positive_sum (vs : list Z) :
  Forall (fun v => 0 <= v) vs ->
  (1 <= List.length (filter (Z.ltb 0) vs))%nat -> 0 < Py.sum vs.
Proof.
  induction 1 as [|v rest Hv Hrest IH]; simpl; intro H; [lia|].
  rewrite sum_cons. pose proof (sum_nonneg rest Hrest).
  destruct (0 <? v) eqn:E.
  - apply Z.ltb_lt in E. lia.
  - specialize (IH H). lia.
Qed.

(** Two positive entries in a non-negative list: one of them is a proper
    part of the sum. *)
Lemma two_positive_proper_part (vs : list Z) :
  Forall (fun v => 0 <= v) vs ->
  (2 <= List.length (filter (Z.ltb 0) vs))%nat ->
  Exists (fun v => 0 < v < Py.sum vs) vs.
Proof.
  induction 1 as [|v rest Hv Hrest IH]; simpl; intro H; [lia|].
  rewrite sum_cons. destruct (0 <? v) eqn:E.
  - apply Z.ltb_lt in E. simpl in H.
    pose proof (positive_entry_positive_sum rest Hrest ltac:(lia)).
    apply Exists_cons_hd. lia.
  - apply Z.ltb_ge in E. assert (v = 0) by lia. subst v.
    apply Exists_cons_tl. now apply IH.
Qed.

(** X19.  The harmony is 0 only for a certain outcome.  On a mapping of
    non-negative counts with a positive total, [_calculate_harmony] returns
    a number when the total is below [2^1075]; and whenever it returns one,
    that number is 0 exactly when one label alone has a positive count, and
    above 0 otherwise. *)
Theorem harmony_zero_iff_single_outcome (cs : list (string * Z)) :
  outcome_counts cs = true ->
  0 < Py.sum (values cs) ->
  (Py.sum (values cs) < Py.flush_bound -> exists h, _calculate_harmony cs = Ok h)
  /\ forall h, _calculate_harmony cs = Ok h ->
       (h = 0%R <-> positive_labels cs = 1%nat)
       /\ (positive_labels cs <> 1%nat -> (0 < h)%R).
Proof.
  intros Hwf Hpos. pose proof (outcome_counts_nonneg cs Hwf) as Hnn. split.
  { intro Hb. destruct (harmony_total cs Hwf Hb) as [h [Hh _]]. eauto. }
  intros h Hh.
  assert (Hmany : positive_labels cs <> 1%nat -> (0 < h)%R).
  { intro Hn. unfold positive_labels in Hn.
    pose proof (positive_total_has_positive _ Hnn Hpos) as H1.
    pose proof (two_positive_proper_part _ Hnn ltac:(lia)) as Hex.
    pose proof (entropy_positive _ _ (model_range cs Hwf) Hex) as HE.
    rewrite (harmony_value cs) in Hh.
    replace (Py.sum (values cs) =? 0) with false in Hh
      by (symmetry; apply Z.eqb_neq; lia).
    destruct (find _ (values cs)); [discriminate Hh|]. injection Hh as <-.
    unfold Py.min. destruct (Rlt_dec _ 1); lra. }
  split; [|exact Hmany]. split.
  - intro H0. destruct (Nat.eq_dec (positive_labels cs) 1) as [E|N]; [exact E|].
    specialize (Hmany N). lra.
  - intro Hone. rewrite (harmony_single cs Hwf Hone) in Hh.
    now injection Hh as <-.
Qed.

Lemma harmony_zero_iff_single_outcome_witness :
  (exists h, _calculate_harmony scenario_counts = Ok h)
  /\ forall h, _calculate_harmony scenario_counts = Ok h ->
       (h = 0%R <-> positive_labels scenario_counts = 1%nat)
       /\ (positive_labels scenario_counts <> 1%nat -> (0 < h)%R).
Proof.
  split.
  - apply (proj1 (harmony_zero_iff_single_outcome scenario_counts
                    eq_refl eq_refl)).
    reflexivity.
  - apply (proj2 (harmony_zero_iff_single_outcome scenario_counts
                    eq_refl eq_refl)).
Defined.

(** *** Invariance under the number of shots *)

Lemma values_scale (c : Z) (cs : list (string * Z)) :
  values (scale_counts c cs) = map (Z.mul c) (values cs).
Proof.
  unfold values, scale_counts. rewrite !map_map. reflexivity.
Qed.

Lemma sum_scale (c : Z) (vs : list Z) :
  Py.sum (map (Z.mul c) vs) = c * Py.sum vs.
Proof.
  induction vs as [|v rest IH].
  - change (Py.sum (map (Z.mul c) [])) with 0. change (Py.sum []) with 0. lia.
  - cbn [map]. rewrite !sum_cons, IH. lia.
Qed.

Lemma max_scan_scale (c : Z) (rest : list (string * Z)) :
  0 < c ->
  forall best,
    max_scan (fst best, c * snd best) (scale_counts c rest)
    = (fst (max_scan best rest), c * snd (max_scan best rest)).
Proof.
  intro Hc. induction rest as [|item rest IH]; intro best; simpl.
  - reflexivity.
  - replace (c * snd best <? c * snd item) with (snd best <? snd item).
    + destruct (snd best <? snd item); apply IH.
    + destruct (snd best <? snd item) eqn:E; symmetry.
      * apply Z.ltb_lt in E. apply Z.ltb_lt. nia.
      * apply Z.ltb_ge in E. apply Z.ltb_ge. nia.
Qed.

Lemma ratio_scale (c m n : Z) :
  0 < c -> n <> 0 ->
  (inject_Z (c * m) / inject_Z (c * n) == inject_Z m / inject_Z n)%Q.
Proof.
  intros Hc Hn.
  rewrite !inject_Z_mult. field. split.
  - intro H. apply Hn. unfold Qeq in H. simpl in H. lia.
  - intro H. unfold Qeq in H. simpl in H. lia.
Qed.

Lemma leb_scale (c x y : Z) : 0 < c -> (c * x <=? c * y) = (x <=? y).
Proof.
  intro Hc. destruct (x <=? y) eqn:E.
  - apply Z.leb_le in E. apply Z.leb_le. nia.
  - apply Z.leb_gt in E. apply Z.leb_gt. nia.
Qed.

(** A true division of integers sees the quotient alone: it raises, flushes
    or returns alike when both operands are multiplied by [c > 0]. *)
Lemma int_truediv_scale (c a b : Z) :
  0 < c ->
  match Py.int_truediv a b with
  | Ok p => exists p', Py.int_truediv (c * a) (c * b) = Ok p' /\ (p' == p)%Q
  | Raise e => Py.int_truediv (c * a) (c * b) = Raise e
  end.
Proof.
  intro Hc. unfold Py.int_truediv, Py.overflows, Py.underflows.
  rewrite !Z.abs_mul, (Z.abs_eq c) by lia.
  replace (Py.overflow_bound * (c * Z.abs b))
    with (c * (Py.overflow_bound * Z.abs b)) by ring.
  replace (c * Z.abs a * Py.flush_bound)
    with (c * (Z.abs a * Py.flush_bound)) by ring.
  rewrite !leb_scale by assumption.
  destruct (Z.eq_dec b 0) as [->|Hb].
  - replace (c * 0) with 0 by lia. reflexivity.
  - replace (b =? 0) with false by (symmetry; now apply Z.eqb_neq).
    replace (c * b =? 0) with false by (symmetry; apply Z.eqb_neq; nia).
    destruct (Py.overflow_bound * Z.abs b <=? Z.abs a); [reflexivity|].
    eexists. split; [reflexivity|].
    destruct (Z.abs a * Py.flush_bound <=? Z.abs b);
      [reflexivity | now apply ratio_scale].
Qed.

Lemma harmony_loop_scale (c total : Z) (vs : list Z) :
  0 < c ->
  forall h,
    harmony_loop (c * total) (map (Z.mul c) vs) h = harmony_loop total vs h.
Proof.
  intros Hc.
  induction vs as [|v rest IH]; intro h; cbn [map harmony_loop]; [reflexivity|].
  replace (0 <? c * v) with (0 <? v).
  - destruct (0 <? v); [|apply IH].
    pose proof (int_truediv_scale c v total Hc) as Hsc.
    destruct (Py.int_truediv v total) as [p|e].
    + destruct Hsc as [p' [-> Heq]]. cbn [Py.bind].
      rewrite (Qeq_eqR _ _ Heq).
      destruct (Py.log2 (Q2R p)) as [l|e]; cbn [Py.bind]; [apply IH | reflexivity].
    + rewrite Hsc. reflexivity.
  - destruct (0 <? v) eqn:E; symmetry.
    + apply Z.ltb_lt in E. apply Z.ltb_lt. nia.
    + apply Z.ltb_ge in E. apply Z.ltb_ge. nia.
Qed.

Lemma harmony_scale (c : Z) (cs : list (string * Z)) :
  0 < c -> _calculate_harmony (scale_counts c cs) = _calculate_harmony cs.
Proof.
  intro Hc. unfold _calculate_harmony.
  rewrite values_scale, sum_scale.
  destruct (Py.sum (values cs) =? 0) eqn:E.
  - apply Z.eqb_eq in E. rewrite E, Z.mul_0_r. reflexivity.
  - apply Z.eqb_neq in E.
    replace (c * Py.sum (values cs) =? 0) with false
      by (symmetry; apply Z.eqb_neq; nia).
    now rewrite harmony_loop_scale.
Qed.

(** X7.  The analysis depends on the distribution, not on the number of
    shots: with every count multiplied by the same [c > 0] the analyzer
    returns the same dominant label, diversity, harmony and insights, and
    an equal quality. *)
Theorem analysis_is_scale_invariant (c : Z) (result : JobResult) (a : AudioAnalysis) :
  0 < c ->
  analyze_audio_effectiveness result = Ok (Analysis a) ->
  exists a',
    analyze_audio_effectiveness (scale_result c result) = Ok (Analysis a')
    /\ (audio_quality a' == audio_quality a)%Q
    /\ optimal_audio a' = optimal_audio a
    /\ audio_diversity a' = audio_diversity a
    /\ quantum_harmony a' = quantum_harmony a
    /\ audio_insights a' = audio_insights a.
Proof.
  intros Hc Ha.
  destruct (analysis_inversion result a Ha)
    as [Hs [Hd [Hh [Hi [item [rest [Hcs [Ho Hq]]]]]]]].
  pose proof (int_truediv_scale c (snd (max_scan item rest))
                (Py.sum (values (counts result))) Hc) as Hsc.
  rewrite Hq in Hsc. destruct Hsc as [q' [Hq' Heq]].
  unfold analyze_audio_effectiveness.
  cbn [success counts scale_result]. rewrite Hs. cbn [negb].
  rewrite (harmony_scale c (counts result) Hc), Hh.
  rewrite values_scale, sum_scale.
  pose proof (max_scan_scale c rest Hc item) as Hmax.
  rewrite Hcs in *. cbn [scale_counts map Py.max_by_count Py.bind].
  change (map (fun kv : string * Z => (fst kv, c * snd kv)) rest)
    with (scale_counts c rest).
  rewrite Hmax. cbn [fst snd].
  rewrite Hq'. cbn [Py.bind].
  eexists. split; [reflexivity|]. cbn.
  split; [exact Heq|]. split; [now symmetry|].
  split; [rewrite Hd; cbn [List.length]; f_equal; apply length_map|].
  split; [reflexivity|].
  rewrite Hi. unfold _generate_audio_insights, scale_result.
  cbn [success counts execution_time]. rewrite Hcs.
  unfold scale_counts. now rewrite length_map.
Qed.

Lemma analysis_is_scale_invariant_witness :
  exists a,
    analyze_audio_effectiveness (scenario 1) = Ok (Analysis a)
    /\ exists a',
         analyze_audio_effectiveness (scale_result 2 (scenario 1))
         = Ok (Analysis a')
         /\ (audio_quality a' == audio_quality a)%Q
         /\ optimal_audio a' = optimal_audio a
         /\ audio_diversity a' = audio_diversity a
         /\ quantum_harmony a' = quantum_harmony a
         /\ audio_insights a' = audio_insights a.
Proof.
  eexists. split; [apply scenario_analysis|].
  apply (analysis_is_scale_invariant 2 (scenario 1)).
  - lia.
  - apply scenario_analysis.
Defined.

(** *** Labels of count 0 *)

Lemma sum_observed (cs : list (string * Z)) :
  Py.sum (values (observed cs)) = Py.sum (values cs).
Proof.
  unfold observed, values.
  induction cs as [|[k v] rest IH]; [reflexivity|].
  cbn [filter map snd]. destruct (v =? 0) eqn:E; cbn [negb map snd].
  - apply Z.eqb_eq in E. subst v. rewrite sum_cons, IH. lia.
  - rewrite !sum_cons, IH. reflexivity.
Qed.

Lemma harmony_loop_observed (total : Z) (cs : list (string * Z)) :
  forall h,
    harmony_loop total (values (observed cs)) h
    = harmony_loop total (values cs) h.
Proof.
  unfold observed, values.
  induction cs as [|[k v] rest IH]; intro h; [reflexivity|].
  cbn [filter map snd]. destruct (v =? 0) eqn:E; cbn [negb map snd harmony_loop].
  - apply Z.eqb_eq in E. subst v. change (0 <? 0) with false. cbv iota.
    apply IH.
  - destruct (0 <? v); [|apply IH].
    destruct (Py.int_truediv v total) as [p|e]; cbn [Py.bind]; [|reflexivity].
    destruct (Py.log2 (Q2R p)) as [l|e]; cbn [Py.bind]; [apply IH | reflexivity].
Qed.

(** X8.  Labels of count 0 weigh nothing in the harmony: dropping them from
    the mapping leaves it unchanged, although each of them counts in the
    diversity. *)
Theorem harmony_ignores_zero_labels (cs : list (string * Z)) :
  _calculate_harmony (observed cs) = _calculate_harmony cs
  /\ (List.length (observed cs) <= List.length cs)%nat.
Proof.
  split.
  - unfold _calculate_harmony. rewrite sum_observed.
    destruct (Py.sum (values cs) =? 0); [reflexivity|].
    now rewrite harmony_loop_observed.
  - unfold observed. apply filter_length_le.
Qed.

(** ** The suite runner: shape, log and entries of every run *)

Lemma failed_result_marker (r : JobResult) :
  success r = false ->
  analyze_audio_effectiveness r = Ok (AnalysisError "quantum_audio_failed").
Proof. intro Hs. unfold analyze_audio_effectiveness. now rewrite Hs. Qed.

Lemma outcome_record_level (name : string) (o : result JobResult) :
  is_ERROR (outcome_record name o) = is_error (entry_of o).
Proof.
  unfold outcome_record, entry_of, is_error.
  destruct o as [r|e]; [|reflexivity].
  destruct (analyze_audio_effectiveness r); reflexivity.
Qed.

Lemma suite_records_errors (names : list string) (os : list (result JobResult)) :
  List.length names = List.length os ->
  List.length (filter is_ERROR (suite_records names os))
  = List.length (filter is_error (map entry_of os)).
Proof.
  revert os. induction names as [|name names IH]; intros [|o os] H;
    try discriminate; [reflexivity|].
  injection H as H. cbn [suite_records filter map].
  change (is_ERROR (INFO, ("Executing " ++ name ++ "..."))) with false.
  cbv iota. rewrite outcome_record_level.
  destruct (is_error (entry_of o)); simpl; now rewrite (IH os H).
Qed.

Lemma suite_records_length (names : list string) (os : list (result JobResult)) :
  List.length names = List.length os ->
  List.length (suite_records names os) = (2 * List.length names)%nat.
Proof.
  revert os. induction names as [|name names IH]; intros [|o os] H;
    try discriminate; [reflexivity|].
  injection H as H. cbn [suite_records List.length]. rewrite (IH os H). lia.
Qed.

(** The entries of a run are the entries of the analyzer's verdicts. *)
Lemma entry_of_entry (o : result JobResult) (r : JobResult) (d : AnalysisDict) :
  entry_of o = Entry r d ->
  o = Ok r /\ analyze_audio_effectiveness r = Ok d.
Proof.
  unfold entry_of. destruct o as [r'|e]; [|discriminate].
  destruct (analyze_audio_effectiveness r') as [d'|e] eqn:Ha; [|discriminate].
  intro H. injection H as <- <-. split; [reflexivity | exact Ha].
Qed.

Lemma analyze_verdict (r : JobResult) (d : AnalysisDict) :
  analyze_audio_effectiveness r = Ok d ->
  if success r
  then exists a, d = Analysis a
                 /\ audio_diversity a = List.length (counts r)
                 /\ audio_insights a = _generate_audio_insights r
  else d = AnalysisError "quantum_audio_failed".
Proof.
  intro H. destruct (success r) eqn:Hs.
  - destruct d as [msg|a].
    + unfold analyze_audio_effectiveness in H. rewrite Hs in H. simpl in H.
      destruct (Py.max_by_count (counts r)); [|discriminate]. simpl in H.
      destruct (Py.int_truediv _ _); [|discriminate]. simpl in H.
      destruct (_calculate_harmony (counts r)); discriminate.
    + destruct (analysis_inversion r a H) as [_ [Hd [_ [Hi _]]]]. eauto.
  - rewrite (failed_result_marker r Hs) in H. now injection H as <-.
Qed.

Section SuiteTrace.

Variable Manager : Type.
Variable execute_quantum_job : QuantumJob -> Manager -> result JobResult * Manager.

(** One iteration, with all it does to the world. *)
Lemma suite_step_trace (results : SuiteResult) (w : World Manager)
  (name : string) (job : QuantumJob) :
  exists w',
    suite_step Manager (results, w) (name, execute Manager execute_quantum_job job)
    = (setitem results name (entry_of (fst (execute_quantum_job job (manager w)))), w')
    /\ manager w' = snd (execute_quantum_job job (manager w))
    /\ submitted w' = (submitted w ++ [job])%list
    /\ logged w'
       = (logged w
          ++ [(INFO, ("Executing " ++ name ++ "...")%string);
              outcome_record name (fst (execute_quantum_job job (manager w)))])%list.
Proof.
  unfold suite_step, execute, on_exception, entry_of, outcome_record, logger.
  simpl.
  destruct (execute_quantum_job job (manager w)) as [[r|e] m]; simpl.
  - destruct (analyze_audio_effectiveness r) as [a|e]; simpl;
      eexists; repeat split; now rewrite <- app_assoc.
  - eexists; repeat split; now rewrite <- app_assoc.
Qed.

Lemma suite_loop_trace (ops : list (string * QuantumJob)) :
  forall (results : SuiteResult) (w : World Manager),
  exists w',
    fold_left (suite_step Manager)
      (map (fun nj => (fst nj, execute Manager execute_quantum_job (snd nj))) ops)
      (results, w)
    = (fold_left (fun d ne => setitem d (fst ne) (snd ne))
         (combine (map fst ops)
            (map entry_of (outcomes execute_quantum_job (map snd ops) (manager w))))
         results,
       w')
    /\ manager w' = manager_after execute_quantum_job (map snd ops) (manager w)
    /\ submitted w' = (submitted w ++ map snd ops)%list
    /\ logged w'
       = (logged w
          ++ suite_records (map fst ops)
               (outcomes execute_quantum_job (map snd ops) (manager w)))%list.
Proof.
  induction ops as [|[name job] rest IH]; intros results w;
    cbn [map fold_left fst snd combine outcomes manager_after suite_records].
  - exists w. repeat split; now rewrite app_nil_r.
  - destruct (suite_step_trace results w name job) as [w1 [E1 [M1 [S1 L1]]]].
    rewrite E1.
    destruct (IH (setitem results name
                    (entry_of (fst (execute_quantum_job job (manager w))))) w1)
      as [w' [E' [M' [S' L']]]].
    exists w'. rewrite M1 in E', M', L'. split; [exact E'|].
    split; [exact M'|]. split.
    + rewrite S', S1. now rewrite <- app_assoc.
    + rewrite L', L1. now rewrite <- app_assoc.
Qed.

Lemma run_all_trace (w : World Manager) :
  exists w',
    run_all_audio_operations Manager execute_quantum_job w
    = (combine suite_names
         (map entry_of (outcomes execute_quantum_job suite_jobs (manager w))),
       w')
    /\ manager w' = manager_after execute_quantum_job suite_jobs (manager w)
    /\ submitted w' = (submitted w ++ suite_jobs)%list
    /\ logged w'
       = (logged w
          ++ start_record
             :: suite_records suite_names
                  (outcomes execute_quantum_job suite_jobs (manager w)))%list.
Proof.
  unfold run_all_audio_operations.
  destruct (suite_loop_trace (combine suite_names suite_jobs) []
              (logger Manager INFO
                 "Starting pitchfork-echo-studio Quantum Audio Operations" w))
    as [w' [E [M [S L]]]].
  exists w'. split; [etransitivity; [exact E | reflexivity]|].
  split; [exact M|]. split; [exact S|].
  rewrite L. unfold logger. cbn [logged manager].
  rewrite <- app_assoc. reflexivity.
Qed.

(** X10.  Whatever the manager does, a run returns exactly the five
    operation names, in the declared order, and has submitted exactly the
    five jobs, in that order, each to the manager the previous call left:
    no operation is skipped, repeated or reordered. *)
Theorem suite_always_runs_all_five (w : World Manager) :
  exists results w',
    run_all_audio_operations Manager execute_quantum_job w = (results, w')
    /\ keys results = suite_names
    /\ List.length results = 5%nat
    /\ values results
       = map entry_of (outcomes execute_quantum_job suite_jobs (manager w))
    /\ submitted w' = (submitted w ++ suite_jobs)%list
    /\ manager w' = manager_after execute_quantum_job suite_jobs (manager w).
Proof.
  destruct (run_all_trace w) as [w' [E [M [S _]]]].
  pose proof (outcomes_length Manager execute_quantum_job suite_jobs (manager w))
    as Hlen.
  destruct (suite_keys_values
              (map entry_of (outcomes execute_quantum_job suite_jobs (manager w))))
    as [Hk Hv]; [now rewrite length_map, Hlen|].
  eexists. exists w'. split; [exact E|].
  split; [exact Hk|]. split.
  - rewrite length_combine, length_map, Hlen. reflexivity.
  - split; [exact Hv|]. split; assumption.
Qed.

(** X11.  A run appends eleven records to the log: the start line, then for
    each operation its "Executing" line followed by one outcome line; and
    the outcome lines at [ERROR] level are as many as the error markers in
    the returned mapping. *)
Theorem suite_log (w : World Manager) :
  exists results w',
    run_all_audio_operations Manager execute_quantum_job w = (results, w')
    /\ logged w'
       = (logged w
          ++ start_record
             :: suite_records suite_names
                  (outcomes execute_quantum_job suite_jobs (manager w)))%list
    /\ List.length (logged w') = (List.length (logged w) + 11)%nat
    /\ List.length (filter is_ERROR (skipn (List.length (logged w)) (logged w')))
       = List.length (filter is_error (values results)).
Proof.
  destruct (run_all_trace w) as [w' [E [_ [_ L]]]].
  pose proof (outcomes_length Manager execute_quantum_job suite_jobs (manager w))
    as Hlen.
  destruct (suite_keys_values
              (map entry_of (outcomes execute_quantum_job suite_jobs (manager w))))
    as [_ Hv]; [now rewrite length_map, Hlen|].
  assert (Hn : List.length suite_names
               = List.length (outcomes execute_quantum_job suite_jobs (manager w)))
    by now rewrite Hlen.
  eexists. exists w'. split; [exact E|]. split; [exact L|]. split.
  - rewrite L, length_app. cbn [List.length].
    rewrite (suite_records_length _ _ Hn). reflexivity.
  - rewrite L, Hv, skipn_app, skipn_all, Nat.sub_diag.
    cbn [skipn app filter]. change (is_ERROR start_record) with false. cbv iota.
    apply (suite_records_errors _ _ Hn).
Qed.

(** X12.  The mapping a run returns holds, operation by operation, the
    entry of what the operation did.  A job the manager reports as failed
    is stored as a pair, of the failed result and the analyzer's
    [quantum_audio_failed] marker, not as an error marker; and every pair in
    the mapping holds the analyzer's verdict on the stored result: that
    marker when [success] is false, a full analysis when it is true. *)
Theorem suite_pairs_hold_the_verdict (w : World Manager) :
  exists results w',
    run_all_audio_operations Manager execute_quantum_job w = (results, w')
    /\ values results
       = map entry_of (outcomes execute_quantum_job suite_jobs (manager w))
    /\ (forall i r,
          nth_error (outcomes execute_quantum_job suite_jobs (manager w)) i
          = Some (Ok r) ->
          success r = false ->
          nth_error (values results) i
          = Some (Entry r (AnalysisError "quantum_audio_failed")))
    /\ forall name r d, In (name, Entry r d) results ->
         analyze_audio_effectiveness r = Ok d
         /\ if success r
            then exists a, d = Analysis a
                           /\ audio_diversity a = List.length (counts r)
                           /\ audio_insights a = _generate_audio_insights r
            else d = AnalysisError "quantum_audio_failed".
Proof.
  destruct (run_all_trace w) as [w' [E _]].
  pose proof (outcomes_length Manager execute_quantum_job suite_jobs (manager w))
    as Hlen.
  destruct (suite_keys_values
              (map entry_of (outcomes execute_quantum_job suite_jobs (manager w))))
    as [_ Hv]; [now rewrite length_map, Hlen|].
  eexists. exists w'. split; [exact E|]. split; [exact Hv|]. split.
  - intros i r Hi Hs. rewrite Hv, nth_error_map, Hi. cbn [option_map entry_of].
    now rewrite (failed_result_marker r Hs).
  - intros name r d Hin. apply in_combine_r in Hin.
    apply in_map_iff in Hin as [o [Ho _]].
    destruct (entry_of_entry o r d Ho) as [_ Ha].
    split; [exact Ha | now apply analyze_verdict].
Qed.

End SuiteTrace.

(** ** The aggregator: every field of a report *)

(** The report the aggregator returns once an entry has succeeded. *)
Lemma metrics_fields (results : SuiteResult) :
  successes results <> 0%nat ->
  get_audio_performance_metrics results
  = Ok (Metrics {|
      total_audio_operations := List.length results;
      successful_operations := successes results;
      success_rate :=
        (of_len (successes results) / of_len (List.length results))%Q;
      total_execution_time :=
        fsum (map entry_time (filter ran_and_succeeded (values results)));
      average_execution_time :=
        (fsum (map entry_time (filter ran_and_succeeded (values results)))
         / of_len (successes results))%Q;
      average_audio_quality :=
        (fsum (map entry_quality (filter ran_and_succeeded (values results)))
         / of_len (successes results))%Q;
      audio_quantum_readiness :=
        if (4 <=? successes results)%nat then "CONSCIOUS"
        else if (2 <=? successes results)%nat then "HARMONIC" else "DEVELOPING";
      recommendations :=
        ((if fge (of_len (successes results) / of_len (List.length results)) 0.8
          then [rec_production]
          else if fge (of_len (successes results) / of_len (List.length results)) 0.6
               then [rec_advanced] else [])
         ++ (if fge (fsum (map entry_quality
                             (filter ran_and_succeeded (values results)))
                     / of_len (successes results)) 0.7
             then [rec_quality] else []))%list |}).
Proof.
  unfold get_audio_performance_metrics, metrics_with, successes.
  destruct (filter ran_and_succeeded (values results)) as [|e es] eqn:F;
    [intro H; now elim H|]. intros _.
  assert (Hn : exists k, List.length results = S k).
  { pose proof (filter_length_le ran_and_succeeded (values results)) as Hle.
    rewrite F in Hle. unfold values in Hle. rewrite length_map in Hle.
    simpl in Hle. destruct (List.length results); [lia | eauto]. }
  destruct Hn as [k Hk]. rewrite Hk.
  unfold Py.truediv. simpl List.length. rewrite !of_len_nonzero.
  reflexivity.
Qed.

Lemma successes_le_length (results : SuiteResult) :
  (successes results <= List.length results)%nat.
Proof.
  unfold successes. rewrite <- (length_map snd results).
  apply filter_length_le.
Qed.

Lemma metrics_always_returns (results : SuiteResult) :
  exists d, get_audio_performance_metrics results = Ok d
            /\ forall m, d = Metrics m -> successes results <> 0%nat.
Proof.
  destruct (Nat.eq_dec (successes results) 0) as [H0|Hn].
  - pose proof (metrics_report results) as H. unfold successes in H0.
    apply length_zero_iff_nil in H0. rewrite H0 in H.
    eexists. split; [exact H | discriminate].
  - eexists. split; [apply (metrics_fields results Hn) | intros; exact Hn].
Qed.

Lemma ratio_of_len (n t : nat) :
  (0 < n <= t)%nat -> (0 < of_len n / of_len t <= 1)%Q.
Proof.
  intros [Hn Ht]. unfold of_len.
  destruct (Z.of_nat t) as [|p|p] eqn:Et; try lia.
  unfold Qdiv, Qinv, Qmult, Qlt, Qle, inject_Z. simpl. lia.
Qed.

Lemma ratio_of_len_one (t : nat) :
  (0 < t)%nat -> (of_len t / of_len t == 1)%Q.
Proof.
  intro Ht. unfold of_len. apply ratio_whole. lia.
Qed.

(** X13.  A report is returned only when an operation succeeded: it counts
    every entry of the mapping and, among them, the entries that hold a
    successful result, at least one and at most all; its rate is above 0
    and at most 1, and is 1 when every entry succeeded; and its readiness
    follows the number of successes alone: "CONSCIOUS" from 4 on,
    "HARMONIC" for 2 or 3, "DEVELOPING" for 1. *)
Theorem metrics_counts_and_readiness (results : SuiteResult) :
  exists d,
    get_audio_performance_metrics results = Ok d
    /\ forall m, d = Metrics m ->
         total_audio_operations m = List.length results
         /\ successful_operations m = successes results
         /\ (1 <= successful_operations m <= total_audio_operations m)%nat
         /\ (0 < success_rate m <= 1)%Q
         /\ (successful_operations m = total_audio_operations m ->
             (success_rate m == 1)%Q)
         /\ (audio_quantum_readiness m = "CONSCIOUS"
             <-> (4 <= successful_operations m)%nat)
         /\ (audio_quantum_readiness m = "HARMONIC"
             <-> (2 <= successful_operations m <= 3)%nat)
         /\ (audio_quantum_readiness m = "DEVELOPING"
             <-> successful_operations m = 1%nat).
Proof.
  destruct (metrics_always_returns results) as [d [Hd Hn]].
  exists d. split; [exact Hd|]. intros m ->. specialize (Hn m eq_refl).
  rewrite (metrics_fields results Hn) in Hd. injection Hd as <-.
  cbn [total_audio_operations successful_operations success_rate
       audio_quantum_readiness].
  pose proof (successes_le_length results) as Hle.
  split; [reflexivity|]. split; [reflexivity|]. split; [lia|].
  split; [apply ratio_of_len; lia|].
  split; [intro H; rewrite H; apply ratio_of_len_one; lia|].
  destruct (successes results) as [|[|[|[|k]]]]; [now elim Hn| | | |];
    cbn; (split; [|split]); split; intro H;
    try lia; try discriminate H; reflexivity.
Qed.

(** ** The aggregator on a run of the suite *)

Lemma rate_thresholds_of_five (n : nat) :
  (1 <= n <= 5)%nat ->
  fge (of_len n / of_len 5) 0.8 = (4 <=? n)%nat
  /\ fge (of_len n / of_len 5) 0.6 = (3 <=? n)%nat.
Proof.
  intro H.
  destruct n as [|[|[|[|[|[|k]]]]]]; try lia; split; reflexivity.
Qed.

Lemma metrics_of_five (results : SuiteResult) (m : PerformanceMetrics) :
  List.length results = 5%nat ->
  get_audio_performance_metrics results = Ok (Metrics m) ->
  total_audio_operations m = 5%nat
  /\ success_rate m = (of_len (successful_operations m) / of_len 5)%Q
  /\ (In rec_production (recommendations m)
      <-> audio_quantum_readiness m = "CONSCIOUS")
  /\ (audio_quantum_readiness m = "CONSCIOUS"
      <-> (4 <= successful_operations m)%nat)
  /\ (In rec_advanced (recommendations m) <-> successful_operations m = 3%nat).
Proof.
  intros H5 Hm.
  destruct (metrics_always_returns results) as [d [Hd Hn]].
  rewrite Hm in Hd. injection Hd as <-. specialize (Hn m eq_refl).
  rewrite (metrics_fields results Hn) in Hm. injection Hm as <-.
  cbn [total_audio_operations successful_operations success_rate
       audio_quantum_readiness recommendations].
  pose proof (successes_le_length results) as Hle. rewrite H5 in *.
  assert (Hr : (1 <= successes results <= 5)%nat) by lia.
  destruct (rate_thresholds_of_five _ Hr) as [H8 H6]. rewrite H8, H6.
  split; [reflexivity|]. split; [reflexivity|].
  destruct (fge _ 0.7);
    destruct (successes results) as [|[|[|[|[|[|k]]]]]]; try lia;
    cbn; repeat split; intro H; try lia; try discriminate H;
    try reflexivity; try tauto;
    try (repeat (destruct H as [H|H]; try discriminate H); contradiction).
Qed.

Section SuiteMetrics.

Variable Manager : Type.
Variable execute_quantum_job : QuantumJob -> Manager -> result JobResult * Manager.

(** X14.  On the mapping a run of the suite returns the aggregator always
    answers, and in a report the two scales agree: five operations were
    attempted, the rate is the number of successes over 5, the
    production-ready recommendation is given exactly when the readiness is
    "CONSCIOUS", that is with 4 or 5 successes, and the advanced-processing
    recommendation exactly with 3. *)
Theorem metrics_of_a_suite_run (w : World Manager) :
  exists results w' d,
    run_all_audio_operations Manager execute_quantum_job w = (results, w')
    /\ get_audio_performance_metrics results = Ok d
    /\ forall m, d = Metrics m ->
         total_audio_operations m = 5%nat
         /\ success_rate m = (of_len (successful_operations m) / of_len 5)%Q
         /\ (In rec_production (recommendations m)
             <-> audio_quantum_readiness m = "CONSCIOUS")
         /\ (audio_quantum_readiness m = "CONSCIOUS"
             <-> (4 <= successful_operations m)%nat)
         /\ (In rec_advanced (recommendations m)
             <-> successful_operations m = 3%nat).
Proof.
  destruct (run_all_entries Manager execute_quantum_job w) as [w' [E _]].
  set (results :=
         combine suite_names
           (map entry_of (outcomes execute_quantum_job suite_jobs (manager w))))
    in *.
  assert (H5 : List.length results = 5%nat).
  { unfold results. rewrite length_combine, length_map, outcomes_length.
    reflexivity. }
  destruct (metrics_always_returns results) as [d [Hd _]].
  exists results, w', d. split; [exact E|]. split; [exact Hd|].
  intros m ->. exact (metrics_of_five results m H5 Hd).
Qed.

End SuiteMetrics.

(** ** The average quality *)








(** ** The smoke test *)

Section SmokeTestRun.

Variable Manager : Type.
Variable execute_quantum_job : QuantumJob -> Manager -> result JobResult * Manager.
Variable QbraidManager : option string -> result Manager.
Variable format_f : nat -> Q -> string.
Variable format_f_real : nat -> R -> string.
Variable str_float : Q -> string.

Lemma print_prints_only (line : string) : prints_only (print Manager line) tt.
Proof. intro run. exists [line]. reflexivity. Qed.

Lemma done_prints_only {A : Type} (a : A) : prints_only (done Manager a) a.
Proof.
  intro run. exists []. unfold done. rewrite app_nil_r. now destruct run.
Qed.

Lemma bind_prints_only {A B : Type} (c : Step Manager A) (a : A)
  (k : A -> Step Manager B) (b : B) :
  prints_only c a -> prints_only (k a) b -> prints_only (step_bind Manager c k) b.
Proof.
  intros Hc Hk run. destruct (Hc run) as [l1 E1].
  destruct (Hk {| world := world run; stdout := (stdout run ++ l1)%list |})
    as [l2 E2].
  exists (l1 ++ l2)%list. unfold step_bind. rewrite E1, E2. cbn [world stdout].
  now rewrite app_assoc.
Qed.

Lemma print_all_prints_only (lines : list string) :
  prints_only (print_all Manager lines) tt.
Proof.
  induction lines as [|line rest IH]; cbn [print_all].
  - apply done_prints_only.
  - apply (bind_prints_only _ tt); [apply print_prints_only | exact IH].
Qed.

(** A check submits its one job, prints, and raises exactly when the call
    does or the analysis of a successful result does. *)
Lemma check_with_run (header : string) (job : QuantumJob) (label : string)
  (report : AnalysisDict -> Step Manager unit) :
  (forall d, prints_only (report d) tt) ->
  forall run,
  exists r lines,
    check_with execute_quantum_job header job label report run
    = (r, {| world :=
               {| manager := snd (execute_quantum_job job (manager (world run)));
                  submitted := (submitted (world run) ++ [job])%list;
                  logged := logged (world run) |};
             stdout := (stdout run ++ header :: lines)%list |})
    /\ if check_passes (fst (execute_quantum_job job (manager (world run))))
       then r = Ok tt
       else exists e, r = Raise e.
Proof.
  intros Hrep run.
  unfold check_with, step_bind, print, call, execute, eval, done, check_passes.
  cbn [world stdout].
  destruct (execute_quantum_job job (manager (world run))) as [[r|e] m];
    cbn [fst snd world stdout].
  - destruct (success r) eqn:Hs; cbn [str_bool world stdout].
    + destruct (analyze_audio_effectiveness r) as [d|e]; cbn [world stdout].
      * match goal with
        | |- context [report d ?run'] =>
            destruct (Hrep d run') as [lines E];
            cbn [world stdout] in E; rewrite E
        end.
        eexists. eexists. split; [|reflexivity].
        rewrite <- !app_assoc. reflexivity.
      * eexists. eexists. split; [|eauto].
        rewrite <- !app_assoc. reflexivity.
    + eexists. eexists. split; [|reflexivity].
      rewrite <- !app_assoc. reflexivity.
  - eexists. exists []. split; [reflexivity | eauto].
Qed.

Lemma check_synthesis_shape :
  check_synthesis Manager execute_quantum_job format_f
  = check_with execute_quantum_job
      (newline ++ "1. Testing Quantum Audio Synthesis...")
      (synthesis_job 4 100) "Synthesis: Success="
      (fun analysis =>
         step_bind Manager
           (print Manager
              ("   Audio Quality: " ++ format_f 3 (get_audio_quality analysis)))
           (fun _ =>
              print Manager ("   Optimal Audio: " ++ get_optimal_audio analysis))).
Proof. reflexivity. Qed.

Lemma check_consciousness_shape :
  check_consciousness Manager execute_quantum_job format_f_real
  = check_with execute_quantum_job
      (newline ++ "2. Testing Quantum Consciousness Audio...")
      (consciousness_job 3 100) "Consciousness: Success="
      (fun analysis =>
         print Manager
           ("   Quantum Harmony: "
            ++ format_f_real 3 (get_quantum_harmony analysis))).
Proof. reflexivity. Qed.

Lemma check_echo_shape :
  check_echo Manager execute_quantum_job
  = check_with execute_quantum_job
      (newline ++ "3. Testing Quantum Echo Optimization...")
      (echo_job 4 100) "Echo: Success="
      (fun analysis =>
         print Manager
           ("   Audio Diversity: "
            ++ str_int (Z.of_nat (get_audio_diversity analysis)))).
Proof. reflexivity. Qed.

Lemma smoke_test_body_shape :
  smoke_test_body Manager execute_quantum_job format_f format_f_real str_float
  = step_bind Manager (check_synthesis Manager execute_quantum_job format_f)
      (fun _ =>
       step_bind Manager
         (check_consciousness Manager execute_quantum_job format_f_real)
         (fun _ =>
          step_bind Manager (check_echo Manager execute_quantum_job)
            (fun _ =>
             run_suite_and_report Manager execute_quantum_job format_f str_float))).
Proof. reflexivity. Qed.

Lemma print_prints (line : string) : prints (print Manager line) tt [line].
Proof. intro run. reflexivity. Qed.

Lemma done_prints {A : Type} (a : A) : prints (done Manager a) a [].
Proof. intro run. unfold done. rewrite app_nil_r. now destruct run. Qed.

Lemma bind_prints {A B : Type} (c : Step Manager A) (a : A)
  (k : A -> Step Manager B) (b : B) (l1 l2 : list string) :
  prints c a l1 -> prints (k a) b l2 ->
  prints (step_bind Manager c k) b (l1 ++ l2).
Proof.
  intros Hc Hk run. unfold step_bind. rewrite Hc, Hk. cbn [world stdout].
  now rewrite app_assoc.
Qed.

Lemma print_all_prints (lines : list string) :
  prints (print_all Manager lines) tt lines.
Proof.
  induction lines as [|line rest IH]; cbn [print_all].
  - apply done_prints.
  - apply (bind_prints _ tt _ _ [line] rest); [apply print_prints | exact IH].
Qed.

(** The report is printed whole, and ends on the completion line. *)
Lemma print_report_prints (audio_results : SuiteResult) (metrics : MetricsDict) :
  prints (print_report Manager format_f str_float audio_results metrics) true
    (report_lines format_f str_float audio_results metrics).
Proof.
  unfold print_report, report_lines.
  apply (bind_prints _ tt _ _ [_] _); [apply print_prints|].
  apply (bind_prints _ tt); [apply print_all_prints|].
  apply (bind_prints _ tt _ _ [_] _); [apply print_prints|].
  apply (bind_prints _ tt); [apply print_all_prints|].
  apply (bind_prints _ tt _ _ [_] _); [apply print_prints|].
  apply (bind_prints _ tt); [apply print_all_prints|].
  apply (bind_prints _ tt _ _ [_] []); [apply print_prints | apply done_prints].
Qed.

(** From its fourth step on the smoke test cannot raise: the suite holds
    its failures, the aggregator always answers, the rest prints. *)
Lemma run_suite_and_report_run (run : Run Manager) :
  exists results w' d,
    run_all_audio_operations Manager execute_quantum_job (world run)
    = (results, w')
    /\ get_audio_performance_metrics results = Ok d
    /\ run_suite_and_report Manager execute_quantum_job format_f str_float run
       = (Ok true,
          {| world := w';
             stdout :=
               (stdout run
                ++ (newline ++ "4. Running full Quantum Audio Processing Suite...")%string
                :: (newline ++ "5. Analyzing Audio Processing Performance...")%string
                :: report_lines format_f str_float results d)%list |}).
Proof.
  destruct (run_all_audio_operations Manager execute_quantum_job (world run))
    as [results w'] eqn:E.
  destruct (metrics_always_returns results) as [d [Hd _]].
  exists results, w', d. split; [reflexivity|]. split; [exact Hd|].
  unfold run_suite_and_report, step_bind, print, call, eval.
  cbn [world stdout]. rewrite E, Hd.
  rewrite (print_report_prints results d). cbn [world stdout].
  rewrite <- !app_assoc. reflexivity.
Qed.

Lemma report_lines_last (audio_results : SuiteResult) (metrics : MetricsDict) :
  exists front,
    report_lines format_f str_float audio_results metrics
    = (front ++ [completed_line])%list.
Proof.
  unfold report_lines.
  exists ((newline ++ "Audio Operations Results:")%string
          :: map (result_line format_f) audio_results
          ++ (newline ++ "Audio Processing Performance Metrics:")%string
          :: metrics_lines str_float metrics
          ++ "  Recommendations:"
          :: map (fun rec => "    - " ++ rec)%string
               (get_recommendations metrics))%list.
  cbn [app]. f_equal. rewrite <- app_assoc. cbn [app]. f_equal. f_equal.
  rewrite <- app_assoc. reflexivity.
Qed.

Lemma smoke_test_body_run (run : Run Manager) :
  exists r run',
    smoke_test_body Manager execute_quantum_job format_f format_f_real str_float run
    = (r, run')
    /\ if forallb check_passes
            (outcomes execute_quantum_job individual_jobs (manager (world run)))
       then r = Ok true
            /\ (exists lines,
                  stdout run' = (stdout run ++ lines ++ [completed_line])%list)
            /\ submitted (world run')
               = (submitted (world run) ++ individual_jobs ++ suite_jobs)%list
            /\ manager (world run')
               = manager_after execute_quantum_job (individual_jobs ++ suite_jobs)
                   (manager (world run))
            /\ List.length (logged (world run'))
               = (List.length (logged (world run)) + 11)%nat
       else (exists e, r = Raise e)
            /\ (exists lines, stdout run' = (stdout run ++ lines)%list)
            /\ (exists k, (1 <= k <= 3)%nat
                          /\ submitted (world run')
                             = (submitted (world run)
                                ++ firstn k individual_jobs)%list)
            /\ logged (world run') = logged (world run).
Proof.
  rewrite smoke_test_body_shape, check_synthesis_shape,
    check_consciousness_shape, check_echo_shape.
  unfold individual_jobs.
  cbn [outcomes forallb app manager_after].
  unfold step_bind.
  (* first check *)
  match goal with
  | |- context [check_with execute_quantum_job ?h ?j ?l ?rep run] =>
      destruct (check_with_run h j l rep) with (run := run)
        as [r1 [l1 [E1 C1]]]
  end.
  { intro d. apply (bind_prints_only _ tt); apply print_prints_only. }
  rewrite E1.
  destruct (check_passes
              (fst (execute_quantum_job (synthesis_job 4 100) (manager (world run)))));
    cbn [andb].
  2:{ destruct C1 as [e ->]. eexists. eexists. split; [reflexivity|].
      cbn [world stdout submitted logged]. split; [eauto|]. split; [eauto|].
      split; [|reflexivity]. exists 1%nat. split; [lia | reflexivity]. }
  subst r1.
  (* second check *)
  match goal with
  | |- context [check_with execute_quantum_job ?h ?j ?l ?rep ?run1] =>
      destruct (check_with_run h j l rep) with (run := run1)
        as [r2 [l2 [E2 C2]]]
  end.
  { intro d. apply print_prints_only. }
  rewrite E2. cbn [world stdout manager submitted logged] in C2 |- *.
  destruct (check_passes
              (fst (execute_quantum_job (consciousness_job 3 100)
                      (snd (execute_quantum_job (synthesis_job 4 100)
                              (manager (world run)))))));
    cbn [andb].
  2:{ destruct C2 as [e ->]. eexists. eexists. split; [reflexivity|].
      cbn [world stdout submitted logged]. split; [eauto|].
      split; [rewrite <- app_assoc; eauto|].
      split; [|reflexivity]. exists 2%nat. split; [lia|].
      rewrite <- app_assoc. reflexivity. }
  subst r2.
  (* third check *)
  match goal with
  | |- context [check_with execute_quantum_job ?h ?j ?l ?rep ?run2] =>
      destruct (check_with_run h j l rep) with (run := run2)
        as [r3 [l3 [E3 C3]]]
  end.
  { intro d. apply print_prints_only. }
  rewrite E3. cbn [world stdout manager submitted logged] in C3 |- *.
  destruct (check_passes
              (fst (execute_quantum_job (echo_job 4 100)
                      (snd (execute_quantum_job (consciousness_job 3 100)
                              (snd (execute_quantum_job (synthesis_job 4 100)
                                      (manager (world run)))))))));
    cbn [andb].
  2:{ destruct C3 as [e ->]. eexists. eexists. split; [reflexivity|].
      cbn [world stdout submitted logged]. split; [eauto|].
      split; [rewrite <- !app_assoc; eauto|].
      split; [|reflexivity]. exists 3%nat. split; [lia|].
      rewrite <- !app_assoc. reflexivity. }
  subst r3.
  (* the suite and the report *)
  match goal with
  | |- context [run_suite_and_report _ _ _ _ ?run3] =>
      destruct (run_suite_and_report_run run3) as [results [w' [d [Er [_ Es]]]]];
      rewrite Es
  end.
  cbn [world stdout] in Er.
  destruct (run_all_trace Manager execute_quantum_job
              {| manager :=
                   snd (execute_quantum_job (echo_job 4 100)
                          (snd (execute_quantum_job (consciousness_job 3 100)
                                  (snd (execute_quantum_job (synthesis_job 4 100)
                                          (manager (world run)))))));
                 submitted :=
                   (((submitted (world run) ++ [synthesis_job 4 100])
                     ++ [consciousness_job 3 100]) ++ [echo_job 4 100])%list;
                 logged := logged (world run) |})
    as [w'' [Et [Mt [St Lt]]]].
  rewrite Er in Et. injection Et as _ <-.
  cbn [manager submitted logged] in Mt, St, Lt.
  eexists. eexists. split; [reflexivity|].
  cbn [world stdout]. split; [reflexivity|]. split.
  - destruct (report_lines_last results d) as [front ->].
    exists ((newline ++ "1. Testing Quantum Audio Synthesis...")%string :: l1
            ++ (newline ++ "2. Testing Quantum Consciousness Audio...")%string :: l2
            ++ (newline ++ "3. Testing Quantum Echo Optimization...")%string :: l3
            ++ (newline ++ "4. Running full Quantum Audio Processing Suite...")%string
            :: (newline ++ "5. Analyzing Audio Processing Performance...")%string
            :: front)%list.
    repeat (rewrite <- app_assoc || rewrite <- app_comm_cons).
    reflexivity.
  - split; [rewrite St, <- !app_assoc; reflexivity|].
    split; [exact Mt|].
    rewrite Lt, length_app. cbn [List.length].
    rewrite suite_records_length
      by (rewrite (outcomes_length Manager execute_quantum_job); reflexivity).
    reflexivity.
Qed.

Lemma test_run (log : list (LogLevel * string)) (m : Manager) :
  QbraidManager None = Ok m ->
  exists r run',
    smoke_test_body Manager execute_quantum_job format_f format_f_real str_float
      {| world := {| manager := m; submitted := []; logged := log ++ [init_record] |};
         stdout := banner |}
    = (r, run')
    /\ test_pitchfork_echo_studio_integration Manager execute_quantum_job
         QbraidManager format_f format_f_real str_float log
       = match r with
         | Ok verdict => (verdict, stdout run', Some (world run'))
         | Raise e => (false, (stdout run' ++ [error_line e])%list, Some (world run'))
         end.
Proof.
  intro Hm.
  unfold test_pitchfork_echo_studio_integration, __init__. rewrite Hm.
  cbn [Py.bind]. unfold logger. cbn [manager submitted logged].
  change (INFO, "pitchfork-echo-studio Quantum integration initialized")
    with init_record.
  destruct (smoke_test_body Manager execute_quantum_job format_f format_f_real
              str_float
              {| world := {| manager := m; submitted := [];
                             logged := log ++ [init_record] |};
                 stdout := banner |}) as [r run'].
  exists r, run'. split; [reflexivity|]. destruct r; reflexivity.
Qed.

(** X16.  The smoke test's verdict is decided before the suite starts: it
    is true exactly when the object could be built and each of the three
    individual checks got through.  Nothing the five operations of the
    suite do can turn it, and the exit status is 0 exactly on a true
    verdict. *)
Theorem smoke_test_verdict (log : list (LogLevel * string)) :
  fst (fst (test_pitchfork_echo_studio_integration Manager execute_quantum_job
              QbraidManager format_f format_f_real str_float log))
  = match QbraidManager None with
    | Raise _ => false
    | Ok m =>
        forallb check_passes (outcomes execute_quantum_job individual_jobs m)
    end
  /\ (main Manager execute_quantum_job QbraidManager format_f format_f_real
        str_float log = 0
      <-> fst (fst (test_pitchfork_echo_studio_integration Manager
                      execute_quantum_job QbraidManager format_f format_f_real
                      str_float log)) = true).
Proof.
  split.
  - destruct (QbraidManager None) as [m|e] eqn:Hm.
    + destruct (test_run log m Hm) as [r [run' [Eb Et]]]. rewrite Et.
      destruct (smoke_test_body_run
                  {| world := {| manager := m; submitted := [];
                                 logged := log ++ [init_record] |};
                     stdout := banner |}) as [r' [run'' [Eb' C]]].
      rewrite Eb in Eb'. injection Eb' as <- <-.
      cbn [world manager] in C.
      destruct (forallb check_passes
                  (outcomes execute_quantum_job individual_jobs m)).
      * destruct C as [-> _]. reflexivity.
      * destruct C as [[e ->] _]. reflexivity.
    + unfold test_pitchfork_echo_studio_integration, __init__.
      rewrite Hm. reflexivity.
  - unfold main.
    destruct (test_pitchfork_echo_studio_integration Manager execute_quantum_job
                QbraidManager format_f format_f_real str_float log)
      as [[[|] out] w]; cbn [fst]; split; intro H;
      try reflexivity; discriminate H.
Qed.

(** X17.  A passing run prints the banner first and the completion line
    last, and has submitted eight jobs: the three of the individual checks,
    then the five of the suite, each to the manager the previous call
    left.  It has logged twelve records. *)
Theorem smoke_test_passing_run (log : list (LogLevel * string)) (m : Manager) :
  QbraidManager None = Ok m ->
  forallb check_passes (outcomes execute_quantum_job individual_jobs m) = true ->
  exists out w,
    test_pitchfork_echo_studio_integration Manager execute_quantum_job
      QbraidManager format_f format_f_real str_float log
    = (true, out, Some w)
    /\ firstn 2 out = banner
    /\ last out EmptyString = completed_line
    /\ submitted w = (individual_jobs ++ suite_jobs)%list
    /\ manager w
       = manager_after execute_quantum_job (individual_jobs ++ suite_jobs) m
    /\ List.length (logged w) = (List.length log + 12)%nat.
Proof.
  intros Hm Hpass.
  destruct (test_run log m Hm) as [r [run' [Eb Et]]]. rewrite Et.
  destruct (smoke_test_body_run
              {| world := {| manager := m; submitted := [];
                             logged := log ++ [init_record] |};
                 stdout := banner |}) as [r' [run'' [Eb' C]]].
  rewrite Eb in Eb'. injection Eb' as <- <-.
  cbn [world manager submitted logged stdout] in C. rewrite Hpass in C.
  destruct C as [-> [[lines Hout] [Hs [Hman Hlog]]]].
  eexists. eexists. split; [reflexivity|].
  rewrite Hout. split; [reflexivity|]. split.
  - rewrite app_assoc. apply last_last.
  - split; [exact Hs|]. split; [exact Hman|].
    rewrite Hlog, length_app. cbn [List.length]. lia.
Qed.

(** X18.  A run in which the object is built and an individual check
    raises ends on the error line with a false verdict, after one, two or
    three submitted jobs; the suite is never started, so nothing but the
    construction is logged. *)
Theorem smoke_test_failing_run (log : list (LogLevel * string)) (m : Manager) :
  QbraidManager None = Ok m ->
  forallb check_passes (outcomes execute_quantum_job individual_jobs m) = false ->
  exists e out w k,
    test_pitchfork_echo_studio_integration Manager execute_quantum_job
      QbraidManager format_f format_f_real str_float log
    = (false, (out ++ [error_line e])%list, Some w)
    /\ firstn 2 out = banner
    /\ (1 <= k <= 3)%nat
    /\ submitted w = firstn k individual_jobs
    /\ logged w = (log ++ [init_record])%list.
Proof.
  intros Hm Hfail.
  destruct (test_run log m Hm) as [r [run' [Eb Et]]]. rewrite Et.
  destruct (smoke_test_body_run
              {| world := {| manager := m; submitted := [];
                             logged := log ++ [init_record] |};
                 stdout := banner |}) as [r' [run'' [Eb' C]]].
  rewrite Eb in Eb'. injection Eb' as <- <-.
  cbn [world manager submitted logged stdout] in C. rewrite Hfail in C.
  destruct C as [[e ->] [[lines Hout] [[k [Hk Hs]] Hlog]]].
  exists e, (stdout run'), (world run'), k. split; [reflexivity|].
  rewrite Hout. split; [reflexivity|]. split; [exact Hk|].
  split; [exact Hs | exact Hlog].
Qed.

End SmokeTestRun.

Lemma check_passes_analysable (r : JobResult) :
  analysable r = true -> check_passes (Ok r) = true.
Proof.
  intro H. destruct (analysable_ok r H) as [a Ha].
  unfold check_passes. rewrite Ha. now destruct (success r).
Qed.

Lemma smoke_test_passing_run_witness :
  exists out w,
    test_pitchfork_echo_studio_integration nat (scripted suite_fails)
      new_counter no_digits no_digits_real no_text []
    = (true, out, Some w)
    /\ firstn 2 out = banner
    /\ last out EmptyString = completed_line
    /\ submitted w = (individual_jobs ++ suite_jobs)%list
    /\ manager w
       = manager_after (scripted suite_fails) (individual_jobs ++ suite_jobs) 0%nat
    /\ List.length (logged w) = (List.length (@nil (LogLevel * string)) + 12)%nat.
Proof.
  apply (smoke_test_passing_run nat (scripted suite_fails) new_counter
           no_digits no_digits_real no_text [] 0%nat).
  - reflexivity.
  - change (outcomes (scripted suite_fails) individual_jobs 0%nat)
      with [Ok (scenario 1); Ok (scenario 1); Ok (scenario 1)].
    cbn [forallb].
    rewrite (check_passes_analysable (scenario 1)) by reflexivity.
    reflexivity.
Defined.

Lemma smoke_test_failing_run_witness :
  exists e out w k,
    test_pitchfork_echo_studio_integration nat (scripted two_raise)
      new_counter no_digits no_digits_real no_text []
    = (false, (out ++ [error_line e])%list, Some w)
    /\ firstn 2 out = banner
    /\ (1 <= k <= 3)%nat
    /\ submitted w = firstn k individual_jobs
    /\ logged w = ([] ++ [init_record])%list.
Proof.
  apply (smoke_test_failing_run nat (scripted two_raise) new_counter
           no_digits no_digits_real no_text [] 0%nat).
  - reflexivity.
  - reflexivity.
Defined.
